(** * Openai_rag.py: the RAG pipeline of the Streamlit script, embedded in Rocq

    The script is a sequence of top-level statements that Streamlit re-runs on
    every interaction, plus six helper functions.  The helpers call into
    third-party packages (pypdf through langchain's [PyPDFLoader], Chroma,
    HuggingFace embeddings, the OpenAI chat model, the QA chain); these are
    not part of the script, so they appear here as the fields of a record
    [Library] over which every definition is parametrised.  Everything the
    script itself does -- branching, exception handling, temporary files,
    the messages it shows, which library calls it makes and with which
    arguments -- is modelled as written.

    Effects are threaded through a small state-and-exception monad over a
    [World] (file system, Streamlit output, session state, and the trace of
    library calls). *)

From Stdlib Require Import QArith.
From stdpp Require Import gmap strings list pretty.

Close Scope Q_scope.

(** ** Python exceptions and the monad *)

(** Only subclasses of [Exception] occur; [KeyError] is kept apart because
    the script raises it itself through a dictionary subscript. *)
Inductive exn : Type :=
| Exception (msg : string)
| KeyError (key : string).

(** [str(e)]: the message, and for a [KeyError] the repr of the key. *)
Definition str (e : exn) : string :=
  match e with
  | Exception msg => msg
  | KeyError key => "'" +:+ key +:+ "'"
  end.

Inductive outcome (A : Type) : Type :=
| Returned (a : A)
| Raised (e : exn).
Arguments Returned {A} a.
Arguments Raised {A} e.

Definition M (S A : Type) : Type := S → outcome A * S.

Definition ret {S A} (a : A) : M S A := λ s, (Returned a, s).

Definition raise {S A} (e : exn) : M S A := λ s, (Raised e, s).

Definition bind {S A B} (m : M S A) (k : A → M S B) : M S B :=
  λ s, match m s with
       | (Returned a, s') => k a s'
       | (Raised e, s') => (Raised e, s')
       end.

(** [try: body / except Exception as e: handler e].  State changes made by
    the body before it raised are kept, as in Python. *)
Definition try_except {S A} (body : M S A) (handler : exn → M S A) : M S A :=
  λ s, match body s with
       | (Returned a, s') => (Returned a, s')
       | (Raised e, s') => handler e s'
       end.

Definition get {S} : M S S := λ s, (Returned s, s).
Definition modify {S} (f : S → S) : M S unit := λ s, (Returned tt, f s).

Declare Scope py_scope.
Delimit Scope py_scope with py.
Notation "x <- m ;; k" := (bind m (λ x, k))
  (at level 100, m at next level, right associativity) : py_scope.
Notation "m ;; k" := (bind m (λ _, k))
  (at level 100, right associativity) : py_scope.
Open Scope py_scope.

(** Result and final state of a run. *)
Definition result {S A} (r : outcome A * S) : outcome A := fst r.
Definition final {S A} (r : outcome A * S) : S := snd r.

(** ** Data of the pipeline *)

(** A langchain [Document]: text plus the metadata the loader attaches. *)
Record Document : Type := {
  page_content : string;
  metadata_source : string;
  metadata_page : nat;
}.

(** A Streamlit [UploadedFile]; [read] returns its whole content. *)
Record UploadedFile : Type := {
  file_name : string;
  file_data : list Byte.byte;
}.
Definition read (f : UploadedFile) : list Byte.byte := file_data f.

Record Embedder : Type := { model_name : string }.

(** The object [ChatOpenAI(...)] builds: its keyword arguments. *)
Record LLM : Type := {
  openai_api_key : string;
  llm_model_name : string;
  temperature : Q;
  max_tokens : nat;
}.

(** A Chroma store as the script sees it: a handle on the documents and the
    embedding function it was built from. *)
Record DB : Type := {
  db_documents : list Document;
  db_embedding : Embedder;
}.

(** [db.as_retriever(search_kwargs={"k": k})]. *)
Record Retriever : Type := {
  vectorstore : DB;
  search_k : nat;
}.
Definition as_retriever (db : DB) (k : nat) : Retriever :=
  {| vectorstore := db; search_k := k |}.

(** [RecursiveCharacterTextSplitter(chunk_size, chunk_overlap, length_function=len)]. *)
Record TextSplitter : Type := {
  chunk_size : nat;
  chunk_overlap : nat;
}.

(** ** The third-party packages *)

(** Calls into the packages, in the order the script makes them. *)
Inductive Call : Type :=
| CallChatOpenAI (llm : LLM)
| CallPyPDFLoader (path : string)
| CallHuggingFaceEmbeddings (emb : Embedder)
| CallChromaFromDocuments (chunks : list Document) (emb : Embedder)
| CallRetrieverInvoke (r : Retriever) (query : string)
| CallChainInvoke (llm : LLM) (r : Retriever) (query : string).

(** What each package call answers.  Constructors either raise or build the
    object determined by their arguments; [PyPDFLoader(path).load_and_split()]
    sees the path and the bytes stored there, if any. *)
Record Library : Type := {
  ChatOpenAI : LLM → option exn;
  PyPDFLoader_load_and_split : string → option (list Byte.byte) → outcome (list Document);
  HuggingFaceEmbeddings : Embedder → option exn;
  Chroma_from_documents : list Document → Embedder → option exn;
  retriever_invoke : Retriever → string → outcome (list Document);
  RetrievalQAWithSourcesChain_invoke : LLM → Retriever → string → outcome (gmap string string);
}.

(** ** The world the script runs in *)

Record World : Type := {
  files : gmap string (list Byte.byte);
  tmp_seed : nat;
  st_errors : list string;
  st_written : list string;
  messages : option (list (string * string));
  calls : list Call;
}.

Definition set_files (f : gmap string (list Byte.byte) → gmap string (list Byte.byte)) (w : World) : World :=
  {| files := f (files w); tmp_seed := tmp_seed w; st_errors := st_errors w;
     st_written := st_written w; messages := messages w; calls := calls w |}.

Definition set_tmp_seed (n : nat) (w : World) : World :=
  {| files := files w; tmp_seed := n; st_errors := st_errors w;
     st_written := st_written w; messages := messages w; calls := calls w |}.

Definition log_error (msg : string) (w : World) : World :=
  {| files := files w; tmp_seed := tmp_seed w; st_errors := st_errors w ++ [msg];
     st_written := st_written w; messages := messages w; calls := calls w |}.

Definition log_written (msg : string) (w : World) : World :=
  {| files := files w; tmp_seed := tmp_seed w; st_errors := st_errors w;
     st_written := st_written w ++ [msg]; messages := messages w; calls := calls w |}.

Definition set_messages (ms : option (list (string * string))) (w : World) : World :=
  {| files := files w; tmp_seed := tmp_seed w; st_errors := st_errors w;
     st_written := st_written w; messages := ms; calls := calls w |}.

Definition log_call (c : Call) (w : World) : World :=
  {| files := files w; tmp_seed := tmp_seed w; st_errors := st_errors w;
     st_written := st_written w; messages := messages w; calls := calls w ++ [c] |}.

(** [st.error(msg)] and [st.write(msg)] / [st.markdown(msg)]. *)
Definition st_error (msg : string) : M World unit := modify (log_error msg).
Definition st_write (msg : string) : M World unit := modify (log_written msg).

(** [NamedTemporaryFile(delete=False, suffix=...)] used as a context manager:
    an empty file under a name drawn from the seed; it stays on disk when
    the [with] block is left.  Returns [temp_file.name]. *)
Definition tmp_name (seed : nat) (suffix : string) : string :=
  "/tmp/tmp" +:+ pretty seed +:+ suffix.

Definition NamedTemporaryFile (suffix : string) : M World string :=
  w <- get ;;
  let name := tmp_name (tmp_seed w) suffix in
  modify (set_tmp_seed (S (tmp_seed w))) ;;
  modify (set_files (insert name [])) ;;
  ret name.

(** [temp_file.write(data)]. *)
Definition file_write (name : string) (data : list Byte.byte) : M World unit :=
  modify (set_files (insert name data)).

(** [os.unlink(path)]. *)
Definition os_unlink (path : string) : M World unit :=
  w <- get ;;
  match files w !! path with
  | Some _ => modify (set_files (delete path))
  | None => raise (Exception ("[Errno 2] No such file or directory: '" +:+ path +:+ "'"))
  end.

(** Lifting a package answer into the monad. *)
Definition of_outcome {S A} (o : outcome A) : M S A := λ s, (o, s).

Definition of_constructor {S A} (o : option exn) (obj : A) : M S A :=
  match o with
  | None => ret obj
  | Some e => raise e
  end.

(** [d[key]] on a dictionary. *)
Definition getitem {S V} (d : gmap string V) (key : string) : M S V :=
  match d !! key with
  | Some v => ret v
  | None => raise (KeyError key)
  end.

(** Truthiness of a Python string. *)
Definition truthy (s : string) : bool := negb (String.eqb s "").

(** ** Module-level names of the script *)

(** The two globals the helper functions read. *)
Record Globals : Type := {
  Open_api_token : string;
  example_pdfs : gmap string string;
}.

Definition script_example_pdfs : gmap string string :=
  {[ "Short Stories" := "/Users/riccardo/Desktop/Github/LLM_RAG/16_Kurzgeschichten.pdf";
     "Marketing Results" := "/Users/riccardo/Desktop/Github/LLM_RAG/s12943-023-01867-y.pdf" ]}.

Definition script_globals (token : string) : Globals :=
  {| Open_api_token := token; example_pdfs := script_example_pdfs |}.

(** ** Local variables of [load_and_split_pdf] *)

(** The function mutates [chunks] inside [try] blocks and reads [pdf_path]
    in an [except] clause, so its locals live in a frame next to the world. *)
Record Frame : Type := {
  world : World;
  chunks : list Document;
  pdf_path : option string;
}.

Definition lift {A} (m : M World A) : M Frame A :=
  λ fr, let '(o, w') := m (world fr) in
        (o, {| world := w'; chunks := chunks fr; pdf_path := pdf_path fr |}).

Definition extend_chunks (docs : list Document) : M Frame unit :=
  modify (λ fr, {| world := world fr; chunks := chunks fr ++ docs; pdf_path := pdf_path fr |}).

Definition assign_pdf_path (p : string) : M Frame unit :=
  modify (λ fr, {| world := world fr; chunks := chunks fr; pdf_path := Some p |}).

(** Reading [pdf_path]: unbound locals raise [UnboundLocalError]. *)
Definition read_pdf_path : M Frame string :=
  fr <- get ;;
  match pdf_path fr with
  | Some p => ret p
  | None => raise (Exception "cannot access local variable 'pdf_path' where it is not associated with a value")
  end.

(** Runs a function body in a fresh frame whose [chunks] starts as given. *)
Definition with_frame {A} (init : list Document) (body : M Frame A) : M World A :=
  λ w, let '(o, fr) := body {| world := w; chunks := init; pdf_path := None |} in
       (o, world fr).

Section Pipeline.

Context (L : Library) (G : Globals).

(** [loader = PyPDFLoader(path); loader.load_and_split()]. *)
Definition PyPDFLoader (path : string) : M World (list Document) :=
  modify (log_call (CallPyPDFLoader path)) ;;
  w <- get ;;
  of_outcome (PyPDFLoader_load_and_split L path (files w !! path)).

(** [def load_and_split_pdf(uploaded_file, selected_example)] *)
Definition load_and_split_pdf (uploaded_file : option UploadedFile)
    (selected_example : string) : M World (list Document) :=
  with_frame [] (
    match uploaded_file with
    | Some f =>
        try_except
          (temp_file <- lift (NamedTemporaryFile ".pdf") ;;
           lift (file_write temp_file (read f)) ;;
           docs <- lift (PyPDFLoader temp_file) ;;
           extend_chunks docs ;;
           lift (os_unlink temp_file))
          (λ e, lift (st_error ("Error loading and splitting the PDF: " +:+ str e)))
    | None =>
        cond <- (if truthy selected_example
                then p <- getitem (example_pdfs G) selected_example ;; ret (truthy p)
                else ret false) ;;
        if cond : bool then
          try_except
            (p <- getitem (example_pdfs G) selected_example ;;
             assign_pdf_path p ;;
             docs <- lift (PyPDFLoader p) ;;
             extend_chunks docs)
            (λ e, p <- read_pdf_path ;;
                  lift (st_error ("Error loading and splitting the example PDF "
                                  +:+ p +:+ ": " +:+ str e)))
        else ret tt
    end ;;
    fr <- get ;;
    ret (chunks fr)).

(** [def initialize_embeddings()] *)
Definition initialize_embeddings : M World (option Embedder) :=
  try_except
    (let hf := {| model_name := "all-MiniLM-L6-v2" |} in
     modify (log_call (CallHuggingFaceEmbeddings hf)) ;;
     embedding_function <- of_constructor (HuggingFaceEmbeddings L hf) hf ;;
     ret (Some embedding_function))
    (λ e, st_error ("Error initializing embeddings: " +:+ str e) ;;
          ret None).

(** [def initialize_chroma(chunks, embedding_function)] *)
Definition initialize_chroma (chunks : list Document) (embedding_function : Embedder)
    : M World (option DB) :=
  try_except
    (modify (log_call (CallChromaFromDocuments chunks embedding_function)) ;;
     db <- of_constructor (Chroma_from_documents L chunks embedding_function)
             {| db_documents := chunks; db_embedding := embedding_function |} ;;
     ret (Some db))
    (λ e, st_error ("Error initializing Chroma database: " +:+ str e) ;;
          ret None).

(** [def retrieve_documents(db, query)]: the documents that
    [retriever.invoke(query)] yields are dropped; the retriever is returned. *)
Definition retrieve_documents (db : DB) (query : string) : M World (option Retriever) :=
  try_except
    (let retriever := as_retriever db 2 in
     modify (log_call (CallRetrieverInvoke retriever query)) ;;
     _ <- of_outcome (retriever_invoke L retriever query) ;;
     ret (Some retriever))
    (λ e, st_error ("Error retrieving documents: " +:+ str e) ;;
          ret None).

(** [def initialize_llm_model()] *)
Definition initialize_llm_model : M World (option LLM) :=
  try_except
    (let chat := {| openai_api_key := Open_api_token G;
                    llm_model_name := "gpt-3.5-turbo";
                    temperature := 0;
                    max_tokens := 300 |} in
     modify (log_call (CallChatOpenAI chat)) ;;
     llm <- of_constructor (ChatOpenAI L chat) chat ;;
     ret (Some llm))
    (λ e, st_error ("Error initializing OpenAI model: " +:+ str e) ;;
          ret None).

(** [def qa_with_sources(llm_instance, chunks, embedding_instance, query)].
    [text_splitter_instance] is built and then never referred to.  Building
    the chain with [from_chain_type] and calling [invoke] on it is one
    library call here. *)
Definition qa_with_sources (llm_instance : LLM) (chunks : list Document)
    (embedding_instance : Embedder) (query : string) : M World (gmap string string) :=
  try_except
    (let text_splitter_instance := {| chunk_size := 200; chunk_overlap := 50 |} in
     db <- initialize_chroma chunks embedding_instance ;;
     match db with
     | None => ret {[ "answer" := "Error initializing Chroma database." ]}
     | Some db =>
         retriever_instance <- retrieve_documents db query ;;
         match retriever_instance with
         | None => ret {[ "answer" := "Error retrieving documents." ]}
         | Some retriever_instance =>
             modify (log_call (CallChainInvoke llm_instance retriever_instance query)) ;;
             of_outcome (RetrievalQAWithSourcesChain_invoke L llm_instance retriever_instance query)
         end
     end)
    (λ e, st_error ("Error processing QA: " +:+ str e) ;;
          ret {[ "answer" := "Error processing request: " +:+ str e ]}).

(** ** The chat handler *)

(** [if "messages" not in st.session_state: st.session_state.messages = []] *)
Definition messages_init : M World unit :=
  w <- get ;;
  match messages w with
  | None => modify (set_messages (Some []))
  | Some _ => ret tt
  end.

(** [st.session_state.messages.append({"role": role, "content": content})] *)
Definition messages_append (role content : string) : M World unit :=
  w <- get ;;
  match messages w with
  | Some ms => modify (set_messages (Some (ms ++ [(role, content)])))
  | None => raise (Exception "st.session_state has no attribute 'messages'")
  end.

(** [for message in st.session_state.messages: ... st.markdown(message["content"])] *)
Fixpoint show_messages (ms : list (string * string)) : M World unit :=
  match ms with
  | [] => ret tt
  | (_, content) :: rest => st_write content ;; show_messages rest
  end.

Definition show_history : M World unit :=
  w <- get ;;
  match messages w with
  | Some ms => show_messages ms
  | None => raise (Exception "st.session_state has no attribute 'messages'")
  end.

(** The body of [with st.spinner("Thinking..."):], with the two statements
    before it; the script has it three times, letter for letter. *)
Definition answer_prompt (uploaded_file : option UploadedFile)
    (selected_example_pdfs prompt : string) : M World unit :=
  messages_append "user" prompt ;;
  st_write prompt ;;
  llm_instance <- initialize_llm_model ;;
  match llm_instance with
  | None => st_write "Error initializing the LLM model."
  | Some llm_instance =>
      chunks <- load_and_split_pdf uploaded_file selected_example_pdfs ;;
      embedding_instance <- initialize_embeddings ;;
      match embedding_instance with
      | None => st_write "Error initializing embeddings."
      | Some embedding_instance =>
          answer <- qa_with_sources llm_instance chunks embedding_instance prompt ;;
          a <- getitem answer "answer" ;;
          st_write a ;;
          messages_append "assistant" a
      end
  end.

(** One of the three per-selection blocks, from the welcome message on;
    [prompt] is what [st.chat_input] returned under the block's key. *)
Definition chat_block (welcome : string) (prompt : option string)
    (uploaded_file : option UploadedFile) (selected_example_pdfs : string) : M World unit :=
  st_write welcome ;;
  messages_init ;;
  show_history ;;
  match prompt with
  | Some prompt =>
      if truthy prompt
      then answer_prompt uploaded_file selected_example_pdfs prompt
      else ret tt
  | None => ret tt
  end.

End Pipeline.

(** ** One run of the script *)

(** What the widgets hand to one run of the script. *)
Record Inputs : Type := {
  text_input : string;
  selectbox : string;
  file_uploader : option UploadedFile;
  chat_input : string → option string;
}.

(** The welcome texts, shortened to their first sentence. *)
Definition welcome_stories : string :=
  "Welcome to Prime! I am your personal document detective! Short stories question answering".
Definition welcome_marketing : string :=
  "Welcome to Prime! I am your personal document detective! Cancer stem-like cells".

(** The top-level statements from [# Main execution] on. *)
Definition main (L : Library) (inp : Inputs) : M World unit :=
  let G := script_globals (text_input inp) in
  let selected_example_pdfs := selectbox inp in
  uploaded_file <-
    (if String.eqb selected_example_pdfs "Upload your own data" then
       let uploaded_file := file_uploader inp in
       messages_init ;;
       chat_block L G welcome_stories (chat_input inp "chat_input")
         uploaded_file selected_example_pdfs ;;
       ret uploaded_file
     else ret None) ;;
  (if String.eqb selected_example_pdfs "Short Stories" then
     chat_block L G welcome_stories (chat_input inp "chat_input")
       uploaded_file selected_example_pdfs
   else ret tt) ;;
  (if String.eqb selected_example_pdfs "Marketing Results" then
     chat_block L G welcome_marketing (chat_input inp "chat_input_1")
       uploaded_file selected_example_pdfs
   else ret tt).

(** A session: Streamlit runs the script once per interaction; an exception
    ends that run only, and session state, files and the call trace carry
    over to the next. *)
Fixpoint session (L : Library) (runs : list Inputs) (w : World) : World :=
  match runs with
  | [] => w
  | inp :: rest => session L rest (final (main L inp w))
  end.

(** ** Stand-ins for the packages, for running the script on concrete inputs *)

Module Demo.

(** Bytes starting with the PDF magic number parse into one page whose text
    is the rest; anything else is rejected, as is a missing file. *)
Definition load_and_split (path : string) (content : option (list Byte.byte))
    : outcome (list Document) :=
  match content with
  | Some (Byte.x25 :: Byte.x50 :: Byte.x44 :: Byte.x46 :: body) =>
      Returned [ {| page_content := String.string_of_list_byte body;
                    metadata_source := path;
                    metadata_page := 0 |} ]
  | Some _ => Raised (Exception "invalid pdf header")
  | None => Raised (Exception ("File path " +:+ path +:+ " is not a valid file or url"))
  end.

(** The chat model accepts exactly the key ["sk-valid"]. *)
Definition chain_invoke (llm : LLM) (r : Retriever) (query : string)
    : outcome (gmap string string) :=
  if String.eqb (openai_api_key llm) "sk-valid"
  then Returned {[ "question" := query; "answer" := "42"; "sources" := "" ]}
  else Raised (Exception "Error code: 401 - Incorrect API key provided").

Definition library : Library := {|
  ChatOpenAI := λ _, None;
  PyPDFLoader_load_and_split := load_and_split;
  HuggingFaceEmbeddings := λ _, None;
  Chroma_from_documents := λ _ _, None;
  retriever_invoke := λ r _, Returned (take (search_k r) (db_documents (vectorstore r)));
  RetrievalQAWithSourcesChain_invoke := chain_invoke;
|}.

Definition pdf (text : string) : list Byte.byte :=
  [Byte.x25; Byte.x50; Byte.x44; Byte.x46] ++ String.list_byte_of_string text.

Definition w0 : World := {|
  files := {[ "/Users/riccardo/Desktop/Github/LLM_RAG/16_Kurzgeschichten.pdf" := pdf "Once upon a time." ]};
  tmp_seed := 0;
  st_errors := [];
  st_written := [];
  messages := None;
  calls := [];
|}.

(** A later moment of the same session: other files, earlier output. *)
Definition w1 : World := {|
  files := {[ "/Users/riccardo/Desktop/Github/LLM_RAG/16_Kurzgeschichten.pdf" := pdf "Once upon a time.";
              "/home/user/unrelated.txt" := String.list_byte_of_string "hello" ]};
  tmp_seed := 0;
  st_errors := ["Error retrieving documents: timeout"];
  st_written := ["why?"];
  messages := Some [("user", "why?")];
  calls := [CallHuggingFaceEmbeddings {| model_name := "all-MiniLM-L6-v2" |}];
|}.

Definition no_prompt : string → option string := λ _, None.
Definition ask (prompt : string) : string → option string := λ _, Some prompt.

Definition stories (token : string) (prompt : string → option string) : Inputs :=
  {| text_input := token; selectbox := "Short Stories";
     file_uploader := None; chat_input := prompt |}.

Definition upload (token : string) (f : option UploadedFile)
    (prompt : string → option string) : Inputs :=
  {| text_input := token; selectbox := "Upload your own data";
     file_uploader := f; chat_input := prompt |}.

Definition good_file : UploadedFile :=
  {| file_name := "notes.pdf"; file_data := pdf "The sky is blue." |}.
Definition story : Document :=
  {| page_content := "Once upon a time.";
     metadata_source := "/Users/riccardo/Desktop/Github/LLM_RAG/16_Kurzgeschichten.pdf";
     metadata_page := 0 |}.
Definition moral : Document :=
  {| page_content := "And they lived happily ever after.";
     metadata_source := "/Users/riccardo/Desktop/Github/LLM_RAG/16_Kurzgeschichten.pdf";
     metadata_page := 1 |}.

Definition MiniLM : Embedder := {| model_name := "all-MiniLM-L6-v2" |}.

Definition db : DB := {| db_documents := [story; moral]; db_embedding := MiniLM |}.

Definition gpt (key : string) : LLM :=
  {| openai_api_key := key; llm_model_name := "gpt-3.5-turbo";
     temperature := 0; max_tokens := 300 |}.

Definition bad_file : UploadedFile :=
  {| file_name := "notes.txt"; file_data := String.list_byte_of_string "plain text" |}.

End Demo.

(** A second set of stand-ins, in which every package call can fail. *)
Module Strict.

Definition library : Library := {|
  ChatOpenAI := λ llm,
    if String.eqb (openai_api_key llm) ""
    then Some (Exception "Did not find openai_api_key")
    else None;
  PyPDFLoader_load_and_split := Demo.load_and_split;
  HuggingFaceEmbeddings := λ emb,
    if String.eqb (model_name emb) "all-MiniLM-L6-v2"
    then None
    else Some (Exception "not a valid model identifier");
  Chroma_from_documents := λ chunks _,
    match chunks with
    | [] => Some (Exception "Expected Embeddings to be non-empty list")
    | _ => None
    end;
  retriever_invoke := λ r query,
    if String.eqb query ""
    then Raised (Exception "empty query")
    else Returned (take (search_k r) (db_documents (vectorstore r)));
  RetrievalQAWithSourcesChain_invoke := Demo.chain_invoke;
|}.

End Strict.

(** ** Vocabulary of the properties *)

(** World at the moment the parser is called on an upload: the temporary
    file exists and holds the uploaded bytes. *)
Definition upload_staged (f : UploadedFile) (w : World) : World :=
  let name := tmp_name (tmp_seed w) ".pdf" in
  log_call (CallPyPDFLoader name)
    (set_files (insert name (read f))
       (set_files (insert name []) (set_tmp_seed (S (tmp_seed w)) w))).

(** The source the loader reads is rejected by the PDF package with [e]:
    the uploaded bytes, or else the file of the selected example. *)
Definition unreadable (L : Library) (G : Globals) (uploaded_file : option UploadedFile)
    (selected_example : string) (w : World) (e : exn) : Prop :=
  match uploaded_file with
  | Some f =>
      PyPDFLoader_load_and_split L (tmp_name (tmp_seed w) ".pdf") (Some (read f)) = Raised e
  | None =>
      ∃ p, truthy selected_example = true ∧ example_pdfs G !! selected_example = Some p ∧
           truthy p = true ∧ PyPDFLoader_load_and_split L p (files w !! p) = Raised e
  end.

(** The message [st.error] shows for it. *)
Definition load_error_message (G : Globals) (uploaded_file : option UploadedFile)
    (selected_example : string) (e : exn) : string :=
  match uploaded_file with
  | Some _ => "Error loading and splitting the PDF: " +:+ str e
  | None =>
      "Error loading and splitting the example PDF "
      +:+ default "" (example_pdfs G !! selected_example) +:+ ": " +:+ str e
  end.

(** A chunk of 201 characters, one more than the splitter's [chunk_size]. *)
Definition long_chunk : Document :=
  {| page_content := String.concat "" (replicate 201 "a");
     metadata_source := "/tmp/tmp0.pdf";
     metadata_page := 0 |}.



Definition count_calls (kind : Call → bool) (cs : list Call) : nat :=
  length (List.filter kind cs).


Definition succeeds (o : option exn) : bool :=
  match o with
  | None => true
  | Some _ => false
  end.

(** The objects the two initialisers ask the packages for. *)
Definition chat_model (token : string) : LLM :=
  {| openai_api_key := token; llm_model_name := "gpt-3.5-turbo";
     temperature := 0; max_tokens := 300 |}.

Definition sentence_model : Embedder := {| model_name := "all-MiniLM-L6-v2" |}.

(** The question a run of the script sees: the chat input of the block that
    the selection activates. *)
Definition prompt_of (inp : Inputs) : option string :=
  if String.eqb (selectbox inp) "Upload your own data" then chat_input inp "chat_input"
  else if String.eqb (selectbox inp) "Short Stories" then chat_input inp "chat_input"
  else if String.eqb (selectbox inp) "Marketing Results" then chat_input inp "chat_input_1"
  else None.

(** The value of the global [uploaded_file] during a run. *)
Definition uploaded_file_of (inp : Inputs) : option UploadedFile :=
  if String.eqb (selectbox inp) "Upload your own data" then file_uploader inp else None.

(** The loader returns (rather than raising [KeyError]). *)
Definition loader_returns (G : Globals) (uploaded_file : option UploadedFile)
    (selected_example : string) : bool :=
  match uploaded_file with
  | Some _ => true
  | None =>
      negb (truthy selected_example) ||
      match example_pdfs G !! selected_example with
      | Some _ => true
      | None => false
      end
  end.

(** The loader gets as far as handing a file to the PDF package. *)
Definition loader_calls (G : Globals) (uploaded_file : option UploadedFile)
    (selected_example : string) : bool :=
  match uploaded_file with
  | Some _ => true
  | None =>
      truthy selected_example &&
      match example_pdfs G !! selected_example with
      | Some p => truthy p
      | None => false
      end
  end.

(** A run loads a PDF: a non-empty question was asked, the chat model could
    be set up, and the loader has a file to hand to the PDF package. *)
Definition loads_pdf (L : Library) (inp : Inputs) : bool :=
  match prompt_of inp with
  | Some prompt =>
      truthy prompt
      && succeeds (ChatOpenAI L (chat_model (text_input inp)))
      && loader_calls (script_globals (text_input inp)) (uploaded_file_of inp) (selectbox inp)
  | None => false
  end.

(** A run answers a question: a non-empty question was asked, the chat model
    and the embedder could be set up, and the loader returned. *)
Definition answers (L : Library) (inp : Inputs) : bool :=
  match prompt_of inp with
  | Some prompt =>
      truthy prompt
      && succeeds (ChatOpenAI L (chat_model (text_input inp)))
      && loader_returns (script_globals (text_input inp)) (uploaded_file_of inp) (selectbox inp)
      && succeeds (HuggingFaceEmbeddings L sentence_model)
  | None => false
  end.




(** The retriever [qa_with_sources] works with. *)
Definition qa_retriever (chunks : list Document) (emb : Embedder) : Retriever :=
  as_retriever {| db_documents := chunks; db_embedding := emb |} 2.

(** The welcome text of the block a selection activates. *)
Definition welcome_of (selected_example_pdfs : string) : string :=
  if String.eqb selected_example_pdfs "Marketing Results"
  then welcome_marketing else welcome_stories.

(** The selection is one of the three options of the select box. *)
Definition is_option (selected_example_pdfs : string) : bool :=
  String.eqb selected_example_pdfs "Upload your own data"
  || String.eqb selected_example_pdfs "Short Stories"
  || String.eqb selected_example_pdfs "Marketing Results".

(** The chat history, empty while [st.session_state.messages] is unset. *)
Definition history (w : World) : list (string * string) := default [] (messages w).

(** The world once [st.session_state.messages] is set. *)
Definition init_history (w : World) : World :=
  match messages w with
  | Some _ => w
  | None => set_messages (Some []) w
  end.

(** The world after the contents of [ms] were written to the page in order. *)
Definition replay (ms : list (string * string)) (w : World) : World :=
  foldl (λ w m, log_written m.2 w) w ms.

(** The call the loader makes to the PDF package, if any: on the temporary
    copy of an upload, or on the path stored for the selected example. *)
Definition loader_call (G : Globals) (uploaded_file : option UploadedFile)
    (selected_example : string) (seed : nat) : list Call :=
  match uploaded_file with
  | Some _ => [CallPyPDFLoader (tmp_name seed ".pdf")]
  | None =>
      if truthy selected_example then
        match example_pdfs G !! selected_example with
        | Some p => if truthy p then [CallPyPDFLoader p] else []
        | None => []
        end
      else []
  end.

(** The package calls of one run of the script started in [w], as a
    build phase and a query phase of its own: nothing without a question;
    else the chat model, then the PDF load, the embedder, the index built
    from the chunks the loader returns in this very run, and the probe
    search and the chain on the retriever over that one build, each step
    only if the one before it succeeded. *)
Definition question_calls (L : Library) (inp : Inputs) (w : World) : list Call :=
  let G := script_globals (text_input inp) in
  let chat := chat_model (text_input inp) in
  match prompt_of inp with
  | None => []
  | Some prompt =>
      if truthy prompt then
        CallChatOpenAI chat ::
        match ChatOpenAI L chat with
        | Some _ => []
        | None =>
            loader_call G (uploaded_file_of inp) (selectbox inp) (tmp_seed w) ++
            match result (load_and_split_pdf L G (uploaded_file_of inp) (selectbox inp) w) with
            | Raised _ => []
            | Returned chunks =>
                CallHuggingFaceEmbeddings sentence_model ::
                match HuggingFaceEmbeddings L sentence_model with
                | Some _ => []
                | None =>
                    CallChromaFromDocuments chunks sentence_model ::
                    match Chroma_from_documents L chunks sentence_model with
                    | Some _ => []
                    | None =>
                        CallRetrieverInvoke (qa_retriever chunks sentence_model) prompt ::
                        match retriever_invoke L (qa_retriever chunks sentence_model) prompt with
                        | Raised _ => []
                        | Returned _ =>
                            [CallChainInvoke chat (qa_retriever chunks sentence_model) prompt]
                        end
                    end
                end
            end
        end
      else []
  end.


(** * Properties *)

Ltac unfold_monad :=
  unfold with_frame, try_except, bind, lift, extend_chunks, assign_pdf_path,
    read_pdf_path, of_outcome, of_constructor, getitem, st_error, st_write,
    modify, get, ret, raise, result, final in *.

(** ** The loader *)

Section Loader.

Context (L : Library) (G : Globals).

Lemma load_and_split_pdf_uploaded (f : UploadedFile) (sel : string) (w : World) :
  load_and_split_pdf L G (Some f) sel w =
  match PyPDFLoader_load_and_split L (tmp_name (tmp_seed w) ".pdf") (Some (read f)) with
  | Returned docs =>
      (Returned docs, set_files (delete (tmp_name (tmp_seed w) ".pdf")) (upload_staged f w))
  | Raised e =>
      (Returned [], log_error ("Error loading and splitting the PDF: " +:+ str e)
                      (upload_staged f w))
  end.
Proof.
  unfold load_and_split_pdf, NamedTemporaryFile, file_write, PyPDFLoader, os_unlink.
  unfold_monad. cbn.
  rewrite !lookup_insert_eq.
  destruct (PyPDFLoader_load_and_split L _ _) as [docs|e]; reflexivity.
Qed.

Lemma load_and_split_pdf_example (sel p : string) (w : World) :
  truthy sel = true → example_pdfs G !! sel = Some p → truthy p = true →
  load_and_split_pdf L G None sel w =
  match PyPDFLoader_load_and_split L p (files w !! p) with
  | Returned docs => (Returned docs, log_call (CallPyPDFLoader p) w)
  | Raised e =>
      (Returned [], log_error ("Error loading and splitting the example PDF "
                               +:+ p +:+ ": " +:+ str e)
                      (log_call (CallPyPDFLoader p) w))
  end.
Proof.
  intros Hsel Hp Htp.
  unfold load_and_split_pdf, PyPDFLoader. unfold_monad.
  rewrite Hsel, Hp. cbn. rewrite Htp. cbn.
  destruct (PyPDFLoader_load_and_split L _ _) as [docs|e]; reflexivity.
Qed.

Lemma load_and_split_pdf_nothing_selected (sel : string) (w : World) :
  truthy sel = false ∨ (∃ p, example_pdfs G !! sel = Some p ∧ truthy p = false) →
  load_and_split_pdf L G None sel w = (Returned [], w).
Proof.
  unfold load_and_split_pdf. unfold_monad.
  intros [Hsel | (p & Hp & Htp)].
  - rewrite Hsel. reflexivity.
  - destruct (truthy sel); [| reflexivity].
    rewrite Hp. cbn. rewrite Htp. reflexivity.
Qed.

Lemma load_and_split_pdf_missing_key (sel : string) (w : World) :
  truthy sel = true → example_pdfs G !! sel = None →
  load_and_split_pdf L G None sel w = (Raised (KeyError sel), w).
Proof.
  intros Hsel Hnone.
  unfold load_and_split_pdf. unfold_monad.
  rewrite Hsel, Hnone. reflexivity.
Qed.

End Loader.

(** C2 (what the code does where the claim fails): when the PDF package
    rejects the uploaded bytes, [load_and_split_pdf] returns normally and the
    temporary file it created is still on disk, holding those bytes;
    [os.unlink] is reached on the success path only. *)
Theorem load_and_split_pdf_leaks_temp_file (L : Library) (G : Globals)
    (f : UploadedFile) (sel : string) (w : World) (e : exn) :
  PyPDFLoader_load_and_split L (tmp_name (tmp_seed w) ".pdf") (Some (read f)) = Raised e →
  result (load_and_split_pdf L G (Some f) sel w) = Returned [] ∧
  files (final (load_and_split_pdf L G (Some f) sel w)) !! tmp_name (tmp_seed w) ".pdf"
    = Some (read f).
Proof.
  intros He. rewrite load_and_split_pdf_uploaded, He. cbn.
  split; [reflexivity |]. apply lookup_insert_eq.
Qed.

Lemma load_and_split_pdf_leaks_temp_file_witness :
  PyPDFLoader_load_and_split Demo.library (tmp_name (tmp_seed Demo.w0) ".pdf")
    (Some (read Demo.bad_file)) = Raised (Exception "invalid pdf header") ∧
  result (load_and_split_pdf Demo.library (script_globals "sk-")
            (Some Demo.bad_file) "Upload your own data" Demo.w0) = Returned [] ∧
  files (final (load_and_split_pdf Demo.library (script_globals "sk-")
                  (Some Demo.bad_file) "Upload your own data" Demo.w0)) !! "/tmp/tmp0.pdf"
    = Some (read Demo.bad_file).
Proof.
  split; [reflexivity |].
  apply (load_and_split_pdf_leaks_temp_file Demo.library (script_globals "sk-")
           Demo.bad_file "Upload your own data" Demo.w0 (Exception "invalid pdf header")).
  reflexivity.
Defined.

(** On the success path the temporary file is removed again. *)
Lemma load_and_split_pdf_removes_temp_file_on_success (L : Library) (G : Globals)
    (f : UploadedFile) (sel : string) (w : World) (docs : list Document) :
  PyPDFLoader_load_and_split L (tmp_name (tmp_seed w) ".pdf") (Some (read f)) = Returned docs →
  files (final (load_and_split_pdf L G (Some f) sel w)) !! tmp_name (tmp_seed w) ".pdf" = None.
Proof.
  intros Hok. rewrite load_and_split_pdf_uploaded, Hok. cbn.
  apply lookup_delete_eq.
Qed.

(** C6: when the PDF package rejects what the loader reads (the uploaded
    bytes, or the file of the selected example), [load_and_split_pdf] returns
    normally with the empty chunk list and shows exactly one error message,
    which is not empty. *)
Theorem load_and_split_pdf_unreadable_pdf (L : Library) (G : Globals)
    (uploaded_file : option UploadedFile) (selected_example : string) (w : World) (e : exn) :
  unreadable L G uploaded_file selected_example w e →
  result (load_and_split_pdf L G uploaded_file selected_example w) = Returned [] ∧
  st_errors (final (load_and_split_pdf L G uploaded_file selected_example w))
    = st_errors w ++ [load_error_message G uploaded_file selected_example e] ∧
  load_error_message G uploaded_file selected_example e ≠ "".
Proof.
  destruct uploaded_file as [f|]; cbn [unreadable load_error_message].
  - intros He. rewrite load_and_split_pdf_uploaded, He. cbn. done.
  - intros (p & Hsel & Hp & Htp & He).
    rewrite (load_and_split_pdf_example L G _ p) by assumption.
    rewrite He, Hp. cbn. done.
Qed.

Lemma load_and_split_pdf_unreadable_pdf_witness :
  unreadable Demo.library (script_globals "sk-") None "Marketing Results" Demo.w0
    (Exception "File path /Users/riccardo/Desktop/Github/LLM_RAG/s12943-023-01867-y.pdf is not a valid file or url") ∧
  result (load_and_split_pdf Demo.library (script_globals "sk-") None
            "Marketing Results" Demo.w0) = Returned [] ∧
  st_errors (final (load_and_split_pdf Demo.library (script_globals "sk-") None
                      "Marketing Results" Demo.w0))
    = ["Error loading and splitting the example PDF /Users/riccardo/Desktop/Github/LLM_RAG/s12943-023-01867-y.pdf: File path /Users/riccardo/Desktop/Github/LLM_RAG/s12943-023-01867-y.pdf is not a valid file or url"].
Proof.
  assert (H : unreadable Demo.library (script_globals "sk-") None "Marketing Results" Demo.w0
                (Exception "File path /Users/riccardo/Desktop/Github/LLM_RAG/s12943-023-01867-y.pdf is not a valid file or url")).
  { exists "/Users/riccardo/Desktop/Github/LLM_RAG/s12943-023-01867-y.pdf".
    repeat split; vm_compute; reflexivity. }
  split; [exact H |].
  destruct (load_and_split_pdf_unreadable_pdf _ _ _ _ _ _ H) as (Hr & Herr & _).
  split; [exact Hr | exact Herr].
Defined.

(** C9: with no uploaded file and a non-empty selection that is not a key of
    [example_pdfs], the subscript in the [elif] condition raises [KeyError]
    outside of any [try]; the call raises instead of returning chunks, and
    touches nothing in the world. *)
Theorem load_and_split_pdf_unknown_selection_raises (L : Library) (G : Globals)
    (selected_example : string) (w : World) :
  truthy selected_example = true →
  example_pdfs G !! selected_example = None →
  load_and_split_pdf L G None selected_example w = (Raised (KeyError selected_example), w).
Proof. apply load_and_split_pdf_missing_key. Qed.

Lemma load_and_split_pdf_unknown_selection_raises_witness :
  truthy "Upload your own data" = true ∧
  example_pdfs (script_globals "sk-") !! "Upload your own data" = None ∧
  load_and_split_pdf Demo.library (script_globals "sk-") None "Upload your own data" Demo.w0
    = (Raised (KeyError "Upload your own data"), Demo.w0).
Proof.
  split; [reflexivity |]. split; [vm_compute; reflexivity |].
  apply (load_and_split_pdf_unknown_selection_raises Demo.library (script_globals "sk-")
           "Upload your own data" Demo.w0).
  - reflexivity.
  - vm_compute; reflexivity.
Defined.

(** C10: with an uploaded file the outcome does not depend on the selection
    or on the table of examples: the chunks are what the PDF package makes of
    the uploaded bytes (none if it rejects them), the call never raises, and
    the only file handed to the package is the temporary copy. *)
Theorem load_and_split_pdf_upload_takes_precedence (L : Library) (G G' : Globals)
    (f : UploadedFile) (sel sel' : string) (w : World) :
  load_and_split_pdf L G (Some f) sel w = load_and_split_pdf L G' (Some f) sel' w ∧
  result (load_and_split_pdf L G (Some f) sel w)
    = Returned (match PyPDFLoader_load_and_split L (tmp_name (tmp_seed w) ".pdf")
                        (Some (read f)) with
                | Returned docs => docs
                | Raised _ => []
                end) ∧
  calls (final (load_and_split_pdf L G (Some f) sel w))
    = calls w ++ [CallPyPDFLoader (tmp_name (tmp_seed w) ".pdf")].
Proof.
  rewrite !load_and_split_pdf_uploaded.
  destruct (PyPDFLoader_load_and_split L _ _) as [docs|e]; cbn; done.
Qed.

(** ** Indexing, retrieval and synthesis *)

Section QA.

Context (L : Library).

Lemma initialize_chroma_spec (chunks : list Document) (emb : Embedder) (w : World) :
  initialize_chroma L chunks emb w =
  match Chroma_from_documents L chunks emb with
  | None => (Returned (Some {| db_documents := chunks; db_embedding := emb |}),
             log_call (CallChromaFromDocuments chunks emb) w)
  | Some e => (Returned None,
               log_error ("Error initializing Chroma database: " +:+ str e)
                 (log_call (CallChromaFromDocuments chunks emb) w))
  end.
Proof.
  unfold initialize_chroma. unfold_monad. cbn.
  destruct (Chroma_from_documents L chunks emb); reflexivity.
Qed.

Lemma retrieve_documents_spec (db : DB) (query : string) (w : World) :
  retrieve_documents L db query w =
  match retriever_invoke L (as_retriever db 2) query with
  | Returned _ => (Returned (Some (as_retriever db 2)),
                   log_call (CallRetrieverInvoke (as_retriever db 2) query) w)
  | Raised e => (Returned None,
                 log_error ("Error retrieving documents: " +:+ str e)
                   (log_call (CallRetrieverInvoke (as_retriever db 2) query) w))
  end.
Proof.
  unfold retrieve_documents. unfold_monad. cbn.
  destruct (retriever_invoke L _ _); reflexivity.
Qed.


(** The first package call of [qa_with_sources] builds the index from the
    chunks it was given, as they are. *)
Lemma qa_with_sources_indexes_given_chunks (llm : LLM) (chunks : list Document)
    (emb : Embedder) (query : string) (w : World) :
  ∃ later, calls (final (qa_with_sources L llm chunks emb query w))
           = calls w ++ CallChromaFromDocuments chunks emb :: later.
Proof.
  unfold qa_with_sources, try_except, bind at 1, final.
  rewrite initialize_chroma_spec.
  destruct (Chroma_from_documents L chunks emb); cbn; [by exists [] |].
  unfold bind at 1. rewrite retrieve_documents_spec.
  destruct (retriever_invoke L _ _); cbn.
  - destruct (RetrievalQAWithSourcesChain_invoke L _ _ _); cbn;
      rewrite <- !app_assoc; cbn; eauto.
  - rewrite <- !app_assoc; cbn; eauto.
Qed.

End QA.

(** C1 (what the code does where the claim fails): [qa_with_sources] hands
    the chunks it receives to [Chroma.from_documents] as they are; the
    splitter built with [chunk_size=200] is never applied, so a chunk of 201
    characters is indexed whole. *)
Theorem qa_with_sources_indexes_oversized_chunk (L : Library) (llm : LLM) (emb : Embedder)
    (query : string) (w : World) :
  String.length (page_content long_chunk) = 201 ∧
  ∃ later, calls (final (qa_with_sources L llm [long_chunk] emb query w))
           = calls w ++ CallChromaFromDocuments [long_chunk] emb :: later.
Proof.
  split; [vm_compute; reflexivity |].
  apply qa_with_sources_indexes_given_chunks.
Qed.

(** X25: [retrieve_documents] never raises: it runs one search with
    [k = 2] on the store, drops the documents found and returns the
    retriever itself, set to [k = 2]; when the search raises it shows the
    error and returns [None]. *)
Theorem retrieve_documents_returns_retriever (L : Library) (db : DB) (query : string)
    (w : World) :
  result (retrieve_documents L db query w)
    = Returned (match retriever_invoke L (as_retriever db 2) query with
                | Returned _ => Some {| vectorstore := db; search_k := 2 |}
                | Raised _ => None
                end) ∧
  calls (final (retrieve_documents L db query w))
    = calls w ++ [CallRetrieverInvoke {| vectorstore := db; search_k := 2 |} query] ∧
  st_errors (final (retrieve_documents L db query w))
    = st_errors w ++ match retriever_invoke L (as_retriever db 2) query with
                     | Returned _ => []
                     | Raised e => ["Error retrieving documents: " +:+ str e]
                     end.
Proof.
  rewrite retrieve_documents_spec.
  destruct (retriever_invoke L _ _); cbn; rewrite ?app_nil_r; done.
Qed.

(** C4: when the index is built, the probe search succeeds and the chain
    (the language-model call) raises [e], [qa_with_sources] returns normally
    a dictionary whose only entry is ["answer"], holding the non-empty text
    ["Error processing request: " + str(e)]; it has no ["sources"] entry. *)
Theorem qa_with_sources_degrades_on_llm_failure (L : Library) (llm : LLM)
    (chunks : list Document) (emb : Embedder) (query : string) (w : World)
    (hits : list Document) (e : exn) :
  Chroma_from_documents L chunks emb = None →
  retriever_invoke L (as_retriever {| db_documents := chunks; db_embedding := emb |} 2) query
    = Returned hits →
  RetrievalQAWithSourcesChain_invoke L llm
    (as_retriever {| db_documents := chunks; db_embedding := emb |} 2) query = Raised e →
  ∃ answer : gmap string string,
    result (qa_with_sources L llm chunks emb query w) = Returned answer ∧
    answer = {[ "answer" := "Error processing request: " +:+ str e ]} ∧
    answer !! "sources" = None ∧
    answer !! "answer" = Some ("Error processing request: " +:+ str e) ∧
    "Error processing request: " +:+ str e ≠ "".
Proof.
  intros Hbuild Hsearch Hllm.
  exists {[ "answer" := "Error processing request: " +:+ str e ]}.
  split; [| split; [reflexivity | split; [| split]]].
  - unfold qa_with_sources, try_except, bind at 1, result.
    rewrite initialize_chroma_spec, Hbuild. cbn.
    unfold bind at 1. rewrite retrieve_documents_spec, Hsearch. cbn.
    rewrite Hllm. reflexivity.
  - by apply lookup_singleton_ne.
  - apply lookup_singleton_eq.
  - done.
Qed.

Lemma qa_with_sources_degrades_on_llm_failure_witness :
  ∃ answer : gmap string string,
    result (qa_with_sources Demo.library (Demo.gpt "sk-invalid") [Demo.story; Demo.moral]
              Demo.MiniLM "Who lived happily?" Demo.w0) = Returned answer ∧
    answer = {[ "answer" := "Error processing request: Error code: 401 - Incorrect API key provided" ]} ∧
    answer !! "sources" = None ∧
    answer !! "answer"
      = Some "Error processing request: Error code: 401 - Incorrect API key provided" ∧
    "Error processing request: Error code: 401 - Incorrect API key provided" ≠ "".
Proof.
  apply (qa_with_sources_degrades_on_llm_failure Demo.library (Demo.gpt "sk-invalid")
           [Demo.story; Demo.moral] Demo.MiniLM "Who lived happily?" Demo.w0
           [Demo.story; Demo.moral] (Exception "Error code: 401 - Incorrect API key provided"));
    reflexivity.
Defined.

(** ** The chat handler and the session *)

Lemma count_calls_app (kind : Call → bool) (cs cs' : list Call) :
  count_calls kind (cs ++ cs') = count_calls kind cs + count_calls kind cs'.
Proof. unfold count_calls. rewrite List.filter_app. apply length_app. Qed.





Section Handler.

Context (L : Library) (G : Globals).

Lemma initialize_llm_model_spec (w : World) :
  initialize_llm_model L G w =
  match ChatOpenAI L (chat_model (Open_api_token G)) with
  | None => (Returned (Some (chat_model (Open_api_token G))),
             log_call (CallChatOpenAI (chat_model (Open_api_token G))) w)
  | Some e => (Returned None,
               log_error ("Error initializing OpenAI model: " +:+ str e)
                 (log_call (CallChatOpenAI (chat_model (Open_api_token G))) w))
  end.
Proof.
  unfold initialize_llm_model, chat_model. unfold_monad. cbn.
  destruct (ChatOpenAI L _); reflexivity.
Qed.

Lemma initialize_embeddings_spec (w : World) :
  initialize_embeddings L w =
  match HuggingFaceEmbeddings L sentence_model with
  | None => (Returned (Some sentence_model),
             log_call (CallHuggingFaceEmbeddings sentence_model) w)
  | Some e => (Returned None,
               log_error ("Error initializing embeddings: " +:+ str e)
                 (log_call (CallHuggingFaceEmbeddings sentence_model) w))
  end.
Proof.
  unfold initialize_embeddings, sentence_model. unfold_monad. cbn.
  destruct (HuggingFaceEmbeddings L _); reflexivity.
Qed.



Lemma bind_run {S A B : Type} (m : M S A) (k : A → M S B) (s : S) :
  bind m k s = match result (m s) with
               | Returned a => k a (final (m s))
               | Raised e => (Raised e, final (m s))
               end.
Proof. unfold bind, result, final. destruct (m s) as [[a|e] s']; reflexivity. Qed.

Lemma messages_append_run (role content : string) (w : World) (ms : list (string * string)) :
  messages w = Some ms →
  messages_append role content w
    = (Returned tt, set_messages (Some (ms ++ [(role, content)])) w).
Proof. intros Hms. unfold messages_append. unfold_monad. rewrite Hms. reflexivity. Qed.

Lemma st_write_run (msg : string) (w : World) :
  st_write msg w = (Returned tt, log_written msg w).
Proof. reflexivity. Qed.



Lemma show_history_run (ms : list (string * string)) (w : World) :
  messages w = Some ms → show_history w = show_messages ms w.
Proof. intros Hms. unfold show_history, bind, get. rewrite Hms. reflexivity. Qed.



End Handler.



(** A run that answers a question has loaded its PDF in that same run. *)
Lemma answers_loads_pdf (L : Library) (inp : Inputs) :
  answers L inp = true → loads_pdf L inp = true.
Proof.
  destruct inp as [token sel fu ci].
  unfold answers, loads_pdf, prompt_of, uploaded_file_of.
  cbn [text_input selectbox file_uploader chat_input].
  destruct (String.eqb_spec sel "Upload your own data") as [-> | Hup].
  { destruct (ci "chat_input"); [| done].
    destruct fu; cbn [loader_returns loader_calls]; [| vm_compute (_ || _)];
      destruct (truthy _), (succeeds (ChatOpenAI L _)); cbn; done. }
  destruct (String.eqb_spec sel "Short Stories") as [-> | Hst].
  { destruct (ci "chat_input"); [| done].
    vm_compute (loader_calls _ _ _).
    destruct (truthy _), (succeeds (ChatOpenAI L _)); cbn; done. }
  destruct (String.eqb_spec sel "Marketing Results") as [-> | Hmk]; [| done].
  destruct (ci "chat_input_1"); [| done].
  vm_compute (loader_calls _ _ _).
  destruct (truthy _), (succeeds (ChatOpenAI L _)); cbn; done.
Qed.


(** ** The script on concrete inputs *)

(** A well-formed upload: its text comes back as one chunk and the temporary
    copy is gone afterwards. *)
Example upload_of_a_pdf :
  result (load_and_split_pdf Demo.library (script_globals "sk-") (Some Demo.good_file)
            "Upload your own data" Demo.w0)
    = Returned [ {| page_content := "The sky is blue.";
                    metadata_source := "/tmp/tmp0.pdf";
                    metadata_page := 0 |} ] ∧
  files (final (load_and_split_pdf Demo.library (script_globals "sk-") (Some Demo.good_file)
                  "Upload your own data" Demo.w0)) !! "/tmp/tmp0.pdf" = None.
Proof. split; vm_compute; reflexivity. Qed.

(** Asking a question under "Upload your own data" before any file was
    uploaded ends the run of the script with the [KeyError] of the loader. *)
Example question_before_upload :
  result (main Demo.library (Demo.upload "sk-valid" None (Demo.ask "What is in my file?"))
            Demo.w0)
    = Raised (KeyError "Upload your own data").
Proof. vm_compute. reflexivity. Qed.

(** The same question under "Short Stories" is answered. *)
Example question_on_short_stories :
  st_written (final (main Demo.library (Demo.stories "sk-valid" (Demo.ask "Who lived happily?"))
                       Demo.w0))
    = [welcome_stories; "Who lived happily?"; "42"].
Proof. vm_compute. reflexivity. Qed.

(** * Further properties of the helper functions *)

(** ** [qa_with_sources] *)

Section QASteps.

Context (L : Library).

Lemma qa_with_sources_run (llm : LLM) (chunks : list Document) (emb : Embedder)
    (query : string) (w : World) :
  qa_with_sources L llm chunks emb query w =
  let w1 := log_call (CallChromaFromDocuments chunks emb) w in
  let w2 := log_call (CallRetrieverInvoke (qa_retriever chunks emb) query) w1 in
  let w3 := log_call (CallChainInvoke llm (qa_retriever chunks emb) query) w2 in
  match Chroma_from_documents L chunks emb with
  | Some e =>
      (Returned {[ "answer" := "Error initializing Chroma database." ]},
       log_error ("Error initializing Chroma database: " +:+ str e) w1)
  | None =>
      match retriever_invoke L (qa_retriever chunks emb) query with
      | Raised e =>
          (Returned {[ "answer" := "Error retrieving documents." ]},
           log_error ("Error retrieving documents: " +:+ str e) w2)
      | Returned _ =>
          match RetrievalQAWithSourcesChain_invoke L llm (qa_retriever chunks emb) query with
          | Returned answer => (Returned answer, w3)
          | Raised e =>
              (Returned {[ "answer" := "Error processing request: " +:+ str e ]},
               log_error ("Error processing QA: " +:+ str e) w3)
          end
      end
  end.
Proof.
  unfold qa_with_sources, try_except, bind at 1, qa_retriever.
  rewrite initialize_chroma_spec.
  destruct (Chroma_from_documents L chunks emb); cbn; [reflexivity |].
  unfold bind at 1. rewrite retrieve_documents_spec.
  destruct (retriever_invoke L _ _); cbn; [| reflexivity].
  destruct (RetrievalQAWithSourcesChain_invoke L _ _ _); reflexivity.
Qed.

Lemma qa_with_sources_answer_holds (llm : LLM) (chunks : list Document) (emb : Embedder)
    (query : string) (w : World) :
  result (qa_with_sources L llm chunks emb query w)
  = Returned
      match Chroma_from_documents L chunks emb with
      | Some _ => {[ "answer" := "Error initializing Chroma database." ]}
      | None =>
          match retriever_invoke L (qa_retriever chunks emb) query with
          | Raised _ => {[ "answer" := "Error retrieving documents." ]}
          | Returned _ =>
              match RetrievalQAWithSourcesChain_invoke L llm (qa_retriever chunks emb) query with
              | Returned answer => answer
              | Raised e => {[ "answer" := "Error processing request: " +:+ str e ]}
              end
          end
      end.
Proof.
  rewrite qa_with_sources_run. cbv zeta.
  destruct (Chroma_from_documents L chunks emb); [reflexivity |].
  destruct (retriever_invoke L _ _); [| reflexivity].
  destruct (RetrievalQAWithSourcesChain_invoke L _ _ _); reflexivity.
Qed.

(** X1: [qa_with_sources] never raises.  It returns the chain's answer when
    the index build, the probe search and the chain all succeed, and
    otherwise a dictionary with the single entry ["answer"] that names the
    step that failed. *)
Theorem qa_with_sources_answer (llm : LLM) (chunks : list Document) (emb : Embedder)
    (query : string) (w : World) :
  result (qa_with_sources L llm chunks emb query w)
  = Returned
      match Chroma_from_documents L chunks emb with
      | Some _ => {[ "answer" := "Error initializing Chroma database." ]}
      | None =>
          match retriever_invoke L (qa_retriever chunks emb) query with
          | Raised _ => {[ "answer" := "Error retrieving documents." ]}
          | Returned _ =>
              match RetrievalQAWithSourcesChain_invoke L llm (qa_retriever chunks emb) query with
              | Returned answer => answer
              | Raised e => {[ "answer" := "Error processing request: " +:+ str e ]}
              end
          end
      end.
Proof. apply qa_with_sources_answer_holds. Qed.

(** X2: the package calls of [qa_with_sources], in order: the index build
    always; the probe search only after a successful build; the chain (and
    with it the language model) only after a successful probe, and then
    exactly once. *)
Theorem qa_with_sources_call_order (llm : LLM) (chunks : list Document) (emb : Embedder)
    (query : string) (w : World) :
  calls (final (qa_with_sources L llm chunks emb query w))
  = calls w ++
    CallChromaFromDocuments chunks emb ::
    match Chroma_from_documents L chunks emb with
    | Some _ => []
    | None =>
        CallRetrieverInvoke (qa_retriever chunks emb) query ::
        match retriever_invoke L (qa_retriever chunks emb) query with
        | Raised _ => []
        | Returned _ => [CallChainInvoke llm (qa_retriever chunks emb) query]
        end
    end.
Proof.
  rewrite qa_with_sources_run. cbv zeta.
  destruct (Chroma_from_documents L chunks emb); cbn; [reflexivity |].
  destruct (retriever_invoke L _ _); cbn.
  - destruct (RetrievalQAWithSourcesChain_invoke L _ _ _); cbn;
      rewrite <- !app_assoc; reflexivity.
  - rewrite <- !app_assoc; reflexivity.
Qed.

(** X3: [qa_with_sources] shows exactly one error message when a step fails
    (with the text of the exception) and none when all steps succeed. *)
Theorem qa_with_sources_errors_shown (llm : LLM) (chunks : list Document) (emb : Embedder)
    (query : string) (w : World) :
  st_errors (final (qa_with_sources L llm chunks emb query w))
  = st_errors w ++
    match Chroma_from_documents L chunks emb with
    | Some e => ["Error initializing Chroma database: " +:+ str e]
    | None =>
        match retriever_invoke L (qa_retriever chunks emb) query with
        | Raised e => ["Error retrieving documents: " +:+ str e]
        | Returned _ =>
            match RetrievalQAWithSourcesChain_invoke L llm (qa_retriever chunks emb) query with
            | Returned _ => []
            | Raised e => ["Error processing QA: " +:+ str e]
            end
        end
    end.
Proof.
  rewrite qa_with_sources_run. cbv zeta.
  destruct (Chroma_from_documents L chunks emb); cbn; [reflexivity |].
  destruct (retriever_invoke L _ _); cbn; [| reflexivity].
  destruct (RetrievalQAWithSourcesChain_invoke L _ _ _); cbn;
    rewrite ?app_nil_r; reflexivity.
Qed.

Lemma qa_with_sources_keeps_session_holds (llm : LLM) (chunks : list Document) (emb : Embedder)
    (query : string) (w : World) :
  files (final (qa_with_sources L llm chunks emb query w)) = files w ∧
  tmp_seed (final (qa_with_sources L llm chunks emb query w)) = tmp_seed w ∧
  st_written (final (qa_with_sources L llm chunks emb query w)) = st_written w ∧
  messages (final (qa_with_sources L llm chunks emb query w)) = messages w.
Proof.
  rewrite qa_with_sources_run. cbv zeta.
  destruct (Chroma_from_documents L chunks emb); cbn; [done |].
  destruct (retriever_invoke L _ _); cbn; [| done].
  destruct (RetrievalQAWithSourcesChain_invoke L _ _ _); cbn; done.
Qed.

(** X4: [qa_with_sources] leaves the file system, the page output and the
    chat history as they were. *)
Theorem qa_with_sources_keeps_session (llm : LLM) (chunks : list Document) (emb : Embedder)
    (query : string) (w : World) :
  files (final (qa_with_sources L llm chunks emb query w)) = files w ∧
  tmp_seed (final (qa_with_sources L llm chunks emb query w)) = tmp_seed w ∧
  st_written (final (qa_with_sources L llm chunks emb query w)) = st_written w ∧
  messages (final (qa_with_sources L llm chunks emb query w)) = messages w.
Proof. apply qa_with_sources_keeps_session_holds. Qed.

(** X5: [initialize_chroma] never raises: it calls [Chroma.from_documents]
    once on the chunks as given and returns the store, or shows the error
    and returns [None] when the call raises. *)
Theorem initialize_chroma_never_raises (chunks : list Document) (emb : Embedder) (w : World) :
  result (initialize_chroma L chunks emb w)
    = Returned (if succeeds (Chroma_from_documents L chunks emb)
                then Some {| db_documents := chunks; db_embedding := emb |}
                else None) ∧
  calls (final (initialize_chroma L chunks emb w))
    = calls w ++ [CallChromaFromDocuments chunks emb] ∧
  st_errors (final (initialize_chroma L chunks emb w))
    = st_errors w ++ match Chroma_from_documents L chunks emb with
                     | Some e => ["Error initializing Chroma database: " +:+ str e]
                     | None => []
                     end.
Proof.
  rewrite initialize_chroma_spec.
  destruct (Chroma_from_documents L chunks emb); cbn; rewrite ?app_nil_r; done.
Qed.

(** X6: [initialize_embeddings] never raises: it asks for the model
    ["all-MiniLM-L6-v2"] once and returns it, or shows the error and returns
    [None] when the constructor raises. *)
Theorem initialize_embeddings_never_raises (w : World) :
  result (initialize_embeddings L w)
    = Returned (if succeeds (HuggingFaceEmbeddings L {| model_name := "all-MiniLM-L6-v2" |})
                then Some {| model_name := "all-MiniLM-L6-v2" |}
                else None) ∧
  calls (final (initialize_embeddings L w))
    = calls w ++ [CallHuggingFaceEmbeddings {| model_name := "all-MiniLM-L6-v2" |}] ∧
  st_errors (final (initialize_embeddings L w))
    = st_errors w ++ match HuggingFaceEmbeddings L {| model_name := "all-MiniLM-L6-v2" |} with
                     | Some e => ["Error initializing embeddings: " +:+ str e]
                     | None => []
                     end.
Proof.
  rewrite initialize_embeddings_spec. unfold sentence_model.
  destruct (HuggingFaceEmbeddings L _); cbn; rewrite ?app_nil_r; done.
Qed.

End QASteps.

(** X7: [initialize_llm_model] never raises: it asks once for
    ["gpt-3.5-turbo"] at temperature 0 with at most 300 tokens, handing over
    the token as typed, and returns the model, or shows the error and
    returns [None] when the constructor raises. *)
Theorem initialize_llm_model_never_raises (L : Library) (G : Globals) (w : World) :
  result (initialize_llm_model L G w)
    = Returned (if succeeds (ChatOpenAI L (chat_model (Open_api_token G)))
                then Some {| openai_api_key := Open_api_token G;
                             llm_model_name := "gpt-3.5-turbo";
                             temperature := 0;
                             max_tokens := 300 |}
                else None) ∧
  calls (final (initialize_llm_model L G w))
    = calls w ++ [CallChatOpenAI (chat_model (Open_api_token G))] ∧
  st_errors (final (initialize_llm_model L G w))
    = st_errors w ++ match ChatOpenAI L (chat_model (Open_api_token G)) with
                     | Some e => ["Error initializing OpenAI model: " +:+ str e]
                     | None => []
                     end.
Proof.
  rewrite initialize_llm_model_spec.
  destruct (ChatOpenAI L _); cbn; rewrite ?app_nil_r; done.
Qed.

(** ** [load_and_split_pdf] *)

Section LoaderEffects.

Context (L : Library) (G : Globals).

(** Splits a goal about [load_and_split_pdf] into the paths through it and
    rewrites the call by the lemma of each path. *)
Ltac loader_paths uf sel :=
  destruct uf as [?f|];
  [ rewrite load_and_split_pdf_uploaded;
    destruct (PyPDFLoader_load_and_split L _ _) as [?docs|?e] eqn:?Hparse
  | destruct (truthy sel) eqn:?Hsel;
    [ destruct (example_pdfs G !! sel) as [?p|] eqn:?Hp;
      [ destruct (truthy p) eqn:?Htp;
        [ rewrite (load_and_split_pdf_example L G sel p) by assumption;
          destruct (PyPDFLoader_load_and_split L _ _) as [?docs|?e] eqn:?Hparse
        | rewrite load_and_split_pdf_nothing_selected by eauto ]
      | rewrite load_and_split_pdf_missing_key by assumption ]
    | rewrite load_and_split_pdf_nothing_selected by eauto ] ].

(** X8: whatever it is called with, [load_and_split_pdf] changes no file
    other than its own temporary one. *)
Theorem load_and_split_pdf_keeps_other_files (uf : option UploadedFile) (sel : string)
    (w : World) (path : string) :
  path ≠ tmp_name (tmp_seed w) ".pdf" →
  files (final (load_and_split_pdf L G uf sel w)) !! path = files w !! path.
Proof.
  intros Hne. loader_paths uf sel; cbn; try reflexivity.
  - rewrite lookup_delete_ne, !lookup_insert_ne by done. reflexivity.
  - rewrite !lookup_insert_ne by done. reflexivity.
Qed.

(** X9: without an upload the loader reads only: no file is created,
    changed or removed and no temporary name is used up, also when it
    raises. *)
Theorem load_and_split_pdf_example_touches_no_file (sel : string) (w : World) :
  files (final (load_and_split_pdf L G None sel w)) = files w ∧
  tmp_seed (final (load_and_split_pdf L G None sel w)) = tmp_seed w.
Proof.
  pose (uf := @None UploadedFile).
  change (files (final (load_and_split_pdf L G uf sel w)) = files w ∧
          tmp_seed (final (load_and_split_pdf L G uf sel w)) = tmp_seed w).
  assert (Huf : uf = None) by reflexivity. clearbody uf.
  loader_paths uf sel; try discriminate Huf; cbn; done.
Qed.

(** X10: when the temporary name is free and the PDF package accepts the
    upload, the call returns the package's chunks and leaves the file system
    exactly as it found it. *)
Theorem load_and_split_pdf_upload_restores_files (f : UploadedFile) (sel : string)
    (w : World) (docs : list Document) :
  files w !! tmp_name (tmp_seed w) ".pdf" = None →
  PyPDFLoader_load_and_split L (tmp_name (tmp_seed w) ".pdf") (Some (read f)) = Returned docs →
  result (load_and_split_pdf L G (Some f) sel w) = Returned docs ∧
  files (final (load_and_split_pdf L G (Some f) sel w)) = files w.
Proof.
  intros Hfree Hok. rewrite load_and_split_pdf_uploaded, Hok. cbn.
  split; [reflexivity |].
  rewrite insert_insert_eq. apply delete_insert_id. exact Hfree.
Qed.

(** X11: when the selection names an example and the PDF package accepts
    its file, the call returns the package's chunks for the path in the
    table, shows no error and makes that one package call. *)
Theorem load_and_split_pdf_example_chunks (sel p : string) (w : World)
    (docs : list Document) :
  truthy sel = true → example_pdfs G !! sel = Some p → truthy p = true →
  PyPDFLoader_load_and_split L p (files w !! p) = Returned docs →
  result (load_and_split_pdf L G None sel w) = Returned docs ∧
  st_errors (final (load_and_split_pdf L G None sel w)) = st_errors w ∧
  calls (final (load_and_split_pdf L G None sel w)) = calls w ++ [CallPyPDFLoader p].
Proof.
  intros Hsel Hp Htp Hok.
  rewrite (load_and_split_pdf_example L G sel p) by assumption.
  rewrite Hok. cbn. done.
Qed.

(** X12: with no upload and an empty selection (or an example whose path is
    empty) there is nothing to load: the call returns no chunks and has no
    effect at all. *)
Theorem load_and_split_pdf_nothing_to_load (sel : string) (w : World) :
  truthy sel = false ∨ (∃ p, example_pdfs G !! sel = Some p ∧ truthy p = false) →
  load_and_split_pdf L G None sel w = (Returned [], w).
Proof. apply load_and_split_pdf_nothing_selected. Qed.

Lemma load_and_split_pdf_quiet_holds (uf : option UploadedFile) (sel : string) (w : World) :
  st_written (final (load_and_split_pdf L G uf sel w)) = st_written w ∧
  messages (final (load_and_split_pdf L G uf sel w)) = messages w ∧
  (∃ made, calls (final (load_and_split_pdf L G uf sel w)) = calls w ++ made
           ∧ length made ≤ 1) ∧
  (∃ shown, st_errors (final (load_and_split_pdf L G uf sel w)) = st_errors w ++ shown
            ∧ length shown ≤ 1).
Proof.
  loader_paths uf sel; cbn; (split; [reflexivity |]); (split; [reflexivity |]);
    (split; [first [ by eexists [_] | exists []; rewrite app_nil_r; split; [done | cbn; lia] ]
            | first [ by eexists [_] | exists []; rewrite app_nil_r; split; [done | cbn; lia] ] ]).
Qed.

(** X13: the loader never writes to the page or the chat history, makes at
    most one package call and shows at most one error message. *)
Theorem load_and_split_pdf_quiet (uf : option UploadedFile) (sel : string) (w : World) :
  st_written (final (load_and_split_pdf L G uf sel w)) = st_written w ∧
  messages (final (load_and_split_pdf L G uf sel w)) = messages w ∧
  (∃ made, calls (final (load_and_split_pdf L G uf sel w)) = calls w ++ made
           ∧ length made ≤ 1) ∧
  (∃ shown, st_errors (final (load_and_split_pdf L G uf sel w)) = st_errors w ++ shown
            ∧ length shown ≤ 1).
Proof. apply load_and_split_pdf_quiet_holds. Qed.

(** X14: the loader never shows an error next to chunks: whenever its call
    adds to the error messages, it returns the empty chunk list. *)
Theorem load_and_split_pdf_error_means_no_chunks (uf : option UploadedFile) (sel : string)
    (w : World) :
  st_errors (final (load_and_split_pdf L G uf sel w)) ≠ st_errors w →
  result (load_and_split_pdf L G uf sel w) = Returned [].
Proof.
  loader_paths uf sel; cbn; intros Hshown; try reflexivity; by destruct Hshown.
Qed.

End LoaderEffects.

Lemma load_and_split_pdf_keeps_other_files_witness :
  files (final (load_and_split_pdf Demo.library (script_globals "sk-") (Some Demo.good_file)
                  "Upload your own data" Demo.w0))
    !! "/Users/riccardo/Desktop/Github/LLM_RAG/16_Kurzgeschichten.pdf"
  = Some (Demo.pdf "Once upon a time.").
Proof.
  rewrite (load_and_split_pdf_keeps_other_files Demo.library (script_globals "sk-")
             (Some Demo.good_file) "Upload your own data" Demo.w0
             "/Users/riccardo/Desktop/Github/LLM_RAG/16_Kurzgeschichten.pdf").
  - vm_compute. reflexivity.
  - vm_compute. discriminate.
Defined.

Lemma load_and_split_pdf_upload_restores_files_witness :
  files Demo.w0 !! "/tmp/tmp0.pdf" = None ∧
  result (load_and_split_pdf Demo.library (script_globals "sk-") (Some Demo.good_file)
            "Upload your own data" Demo.w0)
    = Returned [ {| page_content := "The sky is blue.";
                    metadata_source := "/tmp/tmp0.pdf"; metadata_page := 0 |} ] ∧
  files (final (load_and_split_pdf Demo.library (script_globals "sk-") (Some Demo.good_file)
                  "Upload your own data" Demo.w0)) = files Demo.w0.
Proof.
  split; [vm_compute; reflexivity |].
  apply (load_and_split_pdf_upload_restores_files Demo.library (script_globals "sk-")
           Demo.good_file "Upload your own data" Demo.w0).
  - vm_compute. reflexivity.
  - vm_compute. reflexivity.
Defined.

Lemma load_and_split_pdf_example_chunks_witness :
  result (load_and_split_pdf Demo.library (script_globals "sk-") None "Short Stories" Demo.w0)
    = Returned [Demo.story] ∧
  st_errors (final (load_and_split_pdf Demo.library (script_globals "sk-") None
                      "Short Stories" Demo.w0)) = [] ∧
  calls (final (load_and_split_pdf Demo.library (script_globals "sk-") None
                  "Short Stories" Demo.w0))
    = [CallPyPDFLoader "/Users/riccardo/Desktop/Github/LLM_RAG/16_Kurzgeschichten.pdf"].
Proof.
  apply (load_and_split_pdf_example_chunks Demo.library (script_globals "sk-")
           "Short Stories" "/Users/riccardo/Desktop/Github/LLM_RAG/16_Kurzgeschichten.pdf"
           Demo.w0 [Demo.story]); vm_compute; reflexivity.
Defined.

Lemma load_and_split_pdf_nothing_to_load_witness :
  load_and_split_pdf Demo.library (script_globals "sk-") None "" Demo.w1
    = (Returned [], Demo.w1).
Proof.
  apply (load_and_split_pdf_nothing_to_load Demo.library (script_globals "sk-") "" Demo.w1).
  left. reflexivity.
Defined.

Lemma load_and_split_pdf_error_means_no_chunks_witness :
  st_errors (final (load_and_split_pdf Demo.library (script_globals "sk-")
                      (Some Demo.bad_file) "Upload your own data" Demo.w0))
    ≠ st_errors Demo.w0 ∧
  result (load_and_split_pdf Demo.library (script_globals "sk-") (Some Demo.bad_file)
            "Upload your own data" Demo.w0) = Returned [].
Proof.
  assert (H : st_errors (final (load_and_split_pdf Demo.library (script_globals "sk-")
                                  (Some Demo.bad_file) "Upload your own data" Demo.w0))
              ≠ st_errors Demo.w0).
  { vm_compute. discriminate. }
  split; [exact H |].
  exact (load_and_split_pdf_error_means_no_chunks Demo.library (script_globals "sk-")
           (Some Demo.bad_file) "Upload your own data" Demo.w0 H).
Defined.

(** ** The chat handler, step by step *)

Lemma replay_frame (ms : list (string * string)) (w : World) :
  files (replay ms w) = files w ∧ tmp_seed (replay ms w) = tmp_seed w ∧
  st_errors (replay ms w) = st_errors w ∧ messages (replay ms w) = messages w ∧
  calls (replay ms w) = calls w ∧ st_written (replay ms w) = st_written w ++ ms.*2.
Proof.
  revert w. induction ms as [|m ms IH]; intros w.
  - cbn. rewrite app_nil_r. done.
  - change (replay (m :: ms) w) with (replay ms (log_written m.2 w)).
    destruct (IH (log_written m.2 w)) as (-> & -> & -> & -> & -> & ->).
    cbn. rewrite <- app_assoc. done.
Qed.

Lemma show_messages_run (ms : list (string * string)) (w : World) :
  show_messages ms w = (Returned tt, replay ms w).
Proof.
  revert w. induction ms as [|[role content] ms IH]; intros w; [reflexivity |].
  cbn [show_messages]. rewrite bind_run, st_write_run. cbn [result final fst snd].
  apply IH.
Qed.

Lemma messages_init_run (w : World) : messages_init w = (Returned tt, init_history w).
Proof.
  unfold messages_init, init_history. unfold_monad. destruct (messages w); reflexivity.
Qed.

Lemma init_history_messages (w : World) : messages (init_history w) = Some (history w).
Proof.
  unfold init_history, history.
  destruct (messages w) as [ms|] eqn:Hms; [rewrite Hms |]; reflexivity.
Qed.

Section Steps.

Context (L : Library) (G : Globals).

(** The block: welcome text, history replayed, then the question if any. *)
Lemma chat_block_run (welcome : string) (prompt : option string)
    (uf : option UploadedFile) (sel : string) (w : World) :
  chat_block L G welcome prompt uf sel w =
  let w' := replay (history w) (init_history (log_written welcome w)) in
  match prompt with
  | Some prompt => if truthy prompt then answer_prompt L G uf sel prompt w'
                   else (Returned tt, w')
  | None => (Returned tt, w')
  end.
Proof.
  unfold chat_block.
  rewrite bind_run, st_write_run. cbn [result final fst snd].
  rewrite bind_run, messages_init_run. cbn [result final fst snd].
  rewrite bind_run.
  rewrite (show_history_run (history (log_written welcome w)))
    by apply init_history_messages.
  rewrite show_messages_run. cbn [result final fst snd].
  change (history (log_written welcome w)) with (history w). cbv zeta.
  destruct prompt as [prompt|]; [| reflexivity].
  destruct (truthy prompt); reflexivity.
Qed.

(** The turn: every step, with the worlds in between. *)
Lemma answer_prompt_run (uf : option UploadedFile) (sel prompt : string) (w : World)
    (ms : list (string * string)) :
  messages w = Some ms →
  answer_prompt L G uf sel prompt w =
  let chat := chat_model (Open_api_token G) in
  let w1 := log_call (CallChatOpenAI chat)
              (log_written prompt (set_messages (Some (ms ++ [("user", prompt)])) w)) in
  match ChatOpenAI L chat with
  | Some e =>
      (Returned tt,
       log_written "Error initializing the LLM model."
         (log_error ("Error initializing OpenAI model: " +:+ str e) w1))
  | None =>
      match load_and_split_pdf L G uf sel w1 with
      | (Raised e, w2) => (Raised e, w2)
      | (Returned chunks, w2) =>
          let w3 := log_call (CallHuggingFaceEmbeddings sentence_model) w2 in
          match HuggingFaceEmbeddings L sentence_model with
          | Some e =>
              (Returned tt,
               log_written "Error initializing embeddings."
                 (log_error ("Error initializing embeddings: " +:+ str e) w3))
          | None =>
              match qa_with_sources L chat chunks sentence_model prompt w3 with
              | (Raised e, w4) => (Raised e, w4)
              | (Returned answer, w4) =>
                  match answer !! "answer" with
                  | None => (Raised (KeyError "answer"), w4)
                  | Some a => messages_append "assistant" a (log_written a w4)
                  end
              end
          end
      end
  end.
Proof.
  intros Hms. unfold answer_prompt.
  rewrite bind_run, (messages_append_run _ _ _ ms Hms). cbn [result final fst snd].
  rewrite bind_run, st_write_run. cbn [result final fst snd].
  rewrite bind_run, initialize_llm_model_spec. cbv zeta.
  destruct (ChatOpenAI L _) as [e|]; cbn [result final fst snd]; [reflexivity |].
  rewrite bind_run.
  destruct (load_and_split_pdf L G uf sel _) as [[chunks|e] w2];
    cbn [result final fst snd]; [| reflexivity].
  rewrite bind_run, initialize_embeddings_spec.
  destruct (HuggingFaceEmbeddings L _) as [e|]; cbn [result final fst snd]; [reflexivity |].
  rewrite bind_run.
  destruct (qa_with_sources L _ chunks _ prompt _) as [[answer|e] w4];
    cbn [result final fst snd]; [| reflexivity].
  rewrite bind_run. unfold getitem.
  destruct (answer !! "answer") as [a|]; cbn [result final fst snd ret raise];
    [| reflexivity].
  rewrite bind_run, st_write_run. cbn [result final fst snd].
  destruct (messages_append "assistant" a (log_written a w4)) as [[[]|e] w5]; reflexivity.
Qed.

End Steps.

(** One run of the script is the block of the selected option, if any. *)
Lemma main_run (L : Library) (inp : Inputs) (w : World) :
  main L inp w =
  if is_option (selectbox inp)
  then chat_block L (script_globals (text_input inp)) (welcome_of (selectbox inp))
         (prompt_of inp) (uploaded_file_of inp) (selectbox inp)
         (if String.eqb (selectbox inp) "Upload your own data" then init_history w else w)
  else (Returned tt, w).
Proof.
  destruct inp as [token sel fu ci].
  unfold main, is_option, welcome_of, prompt_of, uploaded_file_of.
  cbn [text_input selectbox file_uploader chat_input].
  rewrite bind_run.
  destruct (String.eqb_spec sel "Upload your own data") as [-> | Hup].
  { rewrite bind_run, messages_init_run. cbn [result final fst snd orb].
    rewrite bind_run.
    destruct (chat_block L _ _ _ _ _ _) as [[[]|e] w']; reflexivity. }
  cbn [result final fst snd ret orb].
  rewrite bind_run.
  destruct (String.eqb_spec sel "Short Stories") as [-> | Hst].
  { cbn [orb]. destruct (chat_block L _ _ _ _ _ _) as [[[]|e] w']; reflexivity. }
  cbn [result final fst snd ret orb].
  destruct (String.eqb_spec sel "Marketing Results") as [-> | Hmk]; reflexivity.
Qed.

Lemma load_and_split_pdf_raises_only_on_missing_key_holds (L : Library) (G : Globals)
    (uf : option UploadedFile) (sel : string) (w : World) (e : exn) :
  result (load_and_split_pdf L G uf sel w) = Raised e →
  uf = None ∧ truthy sel = true ∧ example_pdfs G !! sel = None ∧ e = KeyError sel.
Proof.
  destruct uf as [f|].
  - rewrite load_and_split_pdf_uploaded.
    destruct (PyPDFLoader_load_and_split L _ _); discriminate.
  - destruct (truthy sel) eqn:Hsel.
    + destruct (example_pdfs G !! sel) as [p|] eqn:Hp.
      * destruct (truthy p) eqn:Htp.
        -- rewrite (load_and_split_pdf_example L G sel p) by assumption.
           destruct (PyPDFLoader_load_and_split L _ _); discriminate.
        -- rewrite load_and_split_pdf_nothing_selected by eauto. discriminate.
      * rewrite load_and_split_pdf_missing_key by assumption.
        cbn. intros [= <-]. done.
    + rewrite load_and_split_pdf_nothing_selected by eauto. discriminate.
Qed.

(** X15: the loader raises in one situation only: no upload, a non-empty
    selection, and no entry for it in [example_pdfs]; the exception is then
    the [KeyError] of that selection. *)
Theorem load_and_split_pdf_raises_only_on_missing_key (L : Library) (G : Globals)
    (uf : option UploadedFile) (sel : string) (w : World) (e : exn) :
  result (load_and_split_pdf L G uf sel w) = Raised e →
  uf = None ∧ truthy sel = true ∧ example_pdfs G !! sel = None ∧ e = KeyError sel.
Proof. apply load_and_split_pdf_raises_only_on_missing_key_holds. Qed.

Lemma load_and_split_pdf_raises_only_on_missing_key_witness :
  @None UploadedFile = None ∧ truthy "Upload your own data" = true ∧
  example_pdfs (script_globals "sk-") !! "Upload your own data" = None ∧
  KeyError "Upload your own data" = KeyError "Upload your own data".
Proof.
  apply (load_and_split_pdf_raises_only_on_missing_key Demo.library (script_globals "sk-")
           None "Upload your own data" Demo.w0 (KeyError "Upload your own data")).
  vm_compute. reflexivity.
Defined.

Section Turn.

Context (L : Library) (G : Globals).

(** What one turn leaves in the chat history, and how it can end. *)
Lemma answer_prompt_outcome (uf : option UploadedFile) (sel prompt : string) (w : World)
    (ms : list (string * string)) :
  messages w = Some ms →
  (∃ tail, messages (final (answer_prompt L G uf sel prompt w))
             = Some (ms ++ ("user", prompt) :: tail)
           ∧ (tail = [] ∨ ∃ a, tail = [("assistant", a)])) ∧
  (result (answer_prompt L G uf sel prompt w) = Returned tt
   ∨ (result (answer_prompt L G uf sel prompt w) = Raised (KeyError sel)
      ∧ uf = None ∧ example_pdfs G !! sel = None)
   ∨ (result (answer_prompt L G uf sel prompt w) = Raised (KeyError "answer")
      ∧ ∃ chunks answer,
          RetrievalQAWithSourcesChain_invoke L (chat_model (Open_api_token G))
            (qa_retriever chunks sentence_model) prompt = Returned answer
          ∧ answer !! "answer" = None)).
Proof.
  intros Hms. rewrite (answer_prompt_run L G uf sel prompt w ms Hms). cbv zeta.
  destruct (ChatOpenAI L _) as [e|]; cbn [result final fst snd].
  { split; [exists []; split; [reflexivity | by left] | by left]. }
  set (w1 := log_call _ _).
  pose proof (load_and_split_pdf_quiet_holds L G uf sel w1) as (_ & Hm2 & _).
  pose proof (load_and_split_pdf_raises_only_on_missing_key_holds L G uf sel w1) as Hraise.
  destruct (load_and_split_pdf L G uf sel w1) as [[chunks|e] w2];
    cbn [result final fst snd] in *.
  2: { destruct (Hraise e eq_refl) as (-> & _ & Hnone & ->).
       split; [| right; left; done].
       exists []. rewrite Hm2. cbn. rewrite <- ?app_assoc. cbn. split; [reflexivity | by left]. }
  destruct (HuggingFaceEmbeddings L _) as [e|]; cbn [result final fst snd].
  { split; [| by left].
    exists []. cbn. rewrite Hm2. cbn. rewrite <- ?app_assoc. cbn. split; [reflexivity | by left]. }
  set (w3 := log_call _ w2).
  pose proof (qa_with_sources_keeps_session_holds L (chat_model (Open_api_token G)) chunks
                sentence_model prompt w3) as (_ & _ & _ & Hm4).
  pose proof (qa_with_sources_answer_holds L (chat_model (Open_api_token G)) chunks
                sentence_model prompt w3) as Hans.
  destruct (qa_with_sources L _ chunks _ prompt w3) as [[answer|e] w4];
    cbn [result final fst snd] in *; [| discriminate Hans].
  assert (Hm4' : messages w4 = Some (ms ++ [("user", prompt)])).
  { rewrite Hm4. subst w3. cbn. rewrite Hm2. reflexivity. }
  destruct (answer !! "answer") as [a|] eqn:Ha; cbn [result final fst snd].
  - rewrite (messages_append_run _ _ _ (ms ++ [("user", prompt)])) by exact Hm4'.
    cbn [result final fst snd]. split; [| by left].
    exists [("assistant", a)]. cbn. rewrite <- ?app_assoc. cbn. split; [reflexivity | eauto].
  - split.
    + exists []. rewrite Hm4'. rewrite <- ?app_assoc. cbn. split; [reflexivity | by left].
    + right; right. split; [reflexivity |].
      injection Hans as Hans.
      destruct (Chroma_from_documents L chunks sentence_model);
        [subst answer; discriminate Ha |].
      destruct (retriever_invoke L _ _); [| subst answer; discriminate Ha].
      destruct (RetrievalQAWithSourcesChain_invoke L _ _ _) as [d|e] eqn:Hd;
        [| subst answer; discriminate Ha].
      subst d. eauto.
Qed.

End Turn.

(** ** One run of the script, and sessions *)

Lemma init_history_frame (w : World) :
  files (init_history w) = files w ∧ tmp_seed (init_history w) = tmp_seed w ∧
  st_errors (init_history w) = st_errors w ∧ st_written (init_history w) = st_written w ∧
  calls (init_history w) = calls w ∧ history (init_history w) = history w.
Proof. unfold init_history, history. destruct (messages w) eqn:Hms; cbn; rewrite ?Hms; done. Qed.

(** The world in which the block of a run starts its turn, if it has one. *)
Lemma main_turn (L : Library) (inp : Inputs) (w : World) :
  is_option (selectbox inp) = true →
  ∃ w', messages w' = Some (history w) ∧
        files w' = files w ∧ tmp_seed w' = tmp_seed w ∧
        st_errors w' = st_errors w ∧ calls w' = calls w ∧
        st_written w' = st_written w ++ welcome_of (selectbox inp) :: (history w).*2 ∧
        main L inp w =
        match prompt_of inp with
        | Some prompt =>
            if truthy prompt
            then answer_prompt L (script_globals (text_input inp)) (uploaded_file_of inp)
                   (selectbox inp) prompt w'
            else (Returned tt, w')
        | None => (Returned tt, w')
        end.
Proof.
  intros Hopt. rewrite main_run, Hopt, chat_block_run. cbv zeta.
  set (w0 := if String.eqb _ _ then init_history w else w).
  assert (files w0 = files w ∧ st_errors w0 = st_errors w ∧ st_written w0 = st_written w
          ∧ calls w0 = calls w ∧ history w0 = history w ∧ tmp_seed w0 = tmp_seed w)
    as (Hf & He & Hw & Hc & Hh & Hs).
  { subst w0. destruct (String.eqb _ _); [| done].
    destruct (init_history_frame w) as (? & ? & ? & ? & ? & ?). done. }
  eexists. split; [| split; [| split; [| split; [| split; [| split; [| reflexivity]]]]]].
  - destruct (replay_frame (history w0) (init_history (log_written (welcome_of (selectbox inp)) w0)))
      as (_ & _ & _ & -> & _ & _).
    rewrite init_history_messages. change (history (log_written _ w0)) with (history w0).
    by rewrite Hh.
  - destruct (replay_frame (history w0) (init_history (log_written (welcome_of (selectbox inp)) w0)))
      as (-> & _).
    destruct (init_history_frame (log_written (welcome_of (selectbox inp)) w0)) as (-> & _).
    exact Hf.
  - destruct (replay_frame (history w0) (init_history (log_written (welcome_of (selectbox inp)) w0)))
      as (_ & -> & _).
    destruct (init_history_frame (log_written (welcome_of (selectbox inp)) w0))
      as (_ & -> & _).
    exact Hs.
  - destruct (replay_frame (history w0) (init_history (log_written (welcome_of (selectbox inp)) w0)))
      as (_ & _ & -> & _).
    destruct (init_history_frame (log_written (welcome_of (selectbox inp)) w0))
      as (_ & _ & -> & _).
    exact He.
  - destruct (replay_frame (history w0) (init_history (log_written (welcome_of (selectbox inp)) w0)))
      as (_ & _ & _ & _ & -> & _).
    destruct (init_history_frame (log_written (welcome_of (selectbox inp)) w0))
      as (_ & _ & _ & _ & -> & _).
    exact Hc.
  - destruct (replay_frame (history w0) (init_history (log_written (welcome_of (selectbox inp)) w0)))
      as (_ & _ & _ & _ & _ & ->).
    destruct (init_history_frame (log_written (welcome_of (selectbox inp)) w0))
      as (_ & _ & _ & -> & _).
    cbn. rewrite Hw, Hh, <- app_assoc. reflexivity.
Qed.

(** X16: a run in which no question was typed (or an empty one) calls no
    package and touches no file; it sets up the chat history if need be,
    keeps its entries, and writes the welcome text followed by the history
    in order. *)
Theorem main_without_question (L : Library) (inp : Inputs) (w : World) :
  is_option (selectbox inp) = true →
  match prompt_of inp with Some prompt => truthy prompt | None => false end = false →
  result (main L inp w) = Returned tt ∧
  calls (final (main L inp w)) = calls w ∧
  files (final (main L inp w)) = files w ∧
  st_errors (final (main L inp w)) = st_errors w ∧
  messages (final (main L inp w)) = Some (history w) ∧
  st_written (final (main L inp w))
    = st_written w ++ welcome_of (selectbox inp) :: (history w).*2.
Proof.
  intros Hopt Hnone.
  destruct (main_turn L inp w Hopt) as (w' & Hm & Hf & _ & He & Hc & Hw & ->).
  destruct (prompt_of inp) as [prompt|]; [rewrite Hnone |]; cbn; done.
Qed.

Lemma main_without_question_witness :
  result (main Demo.library (Demo.stories "sk-" Demo.no_prompt) Demo.w1) = Returned tt ∧
  calls (final (main Demo.library (Demo.stories "sk-" Demo.no_prompt) Demo.w1))
    = calls Demo.w1 ∧
  files (final (main Demo.library (Demo.stories "sk-" Demo.no_prompt) Demo.w1))
    = files Demo.w1 ∧
  st_errors (final (main Demo.library (Demo.stories "sk-" Demo.no_prompt) Demo.w1))
    = st_errors Demo.w1 ∧
  messages (final (main Demo.library (Demo.stories "sk-" Demo.no_prompt) Demo.w1))
    = Some [("user", "why?")] ∧
  st_written (final (main Demo.library (Demo.stories "sk-" Demo.no_prompt) Demo.w1))
    = ["why?"; welcome_stories; "why?"].
Proof.
  apply (main_without_question Demo.library (Demo.stories "sk-" Demo.no_prompt) Demo.w1);
    reflexivity.
Defined.

(** X17: a question asked under "Upload your own data" while no file is
    uploaded ends the run with [KeyError('Upload your own data')] as soon as
    the chat model could be set up; by then the question is in the chat
    history, and the only package call made is the model's constructor. *)
Theorem main_question_before_upload (L : Library) (inp : Inputs) (w : World)
    (prompt : string) :
  selectbox inp = "Upload your own data" →
  file_uploader inp = None →
  chat_input inp "chat_input" = Some prompt →
  truthy prompt = true →
  ChatOpenAI L (chat_model (text_input inp)) = None →
  result (main L inp w) = Raised (KeyError "Upload your own data") ∧
  messages (final (main L inp w)) = Some (history w ++ [("user", prompt)]) ∧
  calls (final (main L inp w)) = calls w ++ [CallChatOpenAI (chat_model (text_input inp))].
Proof.
  intros Hsel Hfile Hprompt Htruthy Hllm.
  assert (Hopt : is_option (selectbox inp) = true) by (rewrite Hsel; reflexivity).
  destruct (main_turn L inp w Hopt) as (w' & Hm & _ & _ & _ & Hc & _ & ->).
  unfold prompt_of, uploaded_file_of. rewrite Hsel. cbn [String.eqb Ascii.eqb Bool.eqb].
  rewrite Hprompt, Htruthy, Hfile.
  rewrite (answer_prompt_run L _ None _ prompt w' (history w) Hm). cbv zeta.
  cbn [Open_api_token script_globals]. rewrite Hllm.
  rewrite load_and_split_pdf_missing_key by (vm_compute; reflexivity).
  cbn. rewrite Hc. done.
Qed.

Lemma main_question_before_upload_witness :
  result (main Demo.library (Demo.upload "sk-" None (Demo.ask "What is in my file?")) Demo.w1)
    = Raised (KeyError "Upload your own data") ∧
  messages (final (main Demo.library (Demo.upload "sk-" None (Demo.ask "What is in my file?"))
                     Demo.w1))
    = Some [("user", "why?"); ("user", "What is in my file?")] ∧
  calls (final (main Demo.library (Demo.upload "sk-" None (Demo.ask "What is in my file?"))
                  Demo.w1))
    = [CallHuggingFaceEmbeddings {| model_name := "all-MiniLM-L6-v2" |};
       CallChatOpenAI (chat_model "sk-")].
Proof.
  apply (main_question_before_upload Demo.library
           (Demo.upload "sk-" None (Demo.ask "What is in my file?")) Demo.w1
           "What is in my file?"); reflexivity.
Defined.

Lemma main_records_question_holds (L : Library) (inp : Inputs) (w : World) (prompt : string) :
  is_option (selectbox inp) = true →
  prompt_of inp = Some prompt →
  truthy prompt = true →
  ∃ tail, messages (final (main L inp w)) = Some (history w ++ ("user", prompt) :: tail)
          ∧ (tail = [] ∨ ∃ a, tail = [("assistant", a)]).
Proof.
  intros Hopt Hprompt Htruthy.
  destruct (main_turn L inp w Hopt) as (w' & Hm & _ & _ & _ & _ & _ & ->).
  rewrite Hprompt, Htruthy.
  exact (proj1 (answer_prompt_outcome L _ _ _ prompt w' (history w) Hm)).
Qed.

(** X18: a run with a question puts the question into the chat history,
    right after what was there, followed by at most one assistant entry;
    this holds also when the run ends in an exception. *)
Theorem main_records_question (L : Library) (inp : Inputs) (w : World) (prompt : string) :
  is_option (selectbox inp) = true →
  prompt_of inp = Some prompt →
  truthy prompt = true →
  ∃ tail, messages (final (main L inp w)) = Some (history w ++ ("user", prompt) :: tail)
          ∧ (tail = [] ∨ ∃ a, tail = [("assistant", a)]).
Proof. apply main_records_question_holds. Qed.

Lemma main_records_question_witness :
  ∃ tail, messages (final (main Demo.library (Demo.stories "sk-valid" (Demo.ask "how?"))
                             Demo.w1))
            = Some (history Demo.w1 ++ ("user", "how?") :: tail)
          ∧ (tail = [] ∨ ∃ a, tail = [("assistant", a)]).
Proof.
  apply (main_records_question Demo.library (Demo.stories "sk-valid" (Demo.ask "how?"))
           Demo.w1 "how?"); reflexivity.
Defined.

Lemma main_history (L : Library) (inp : Inputs) (w : World) :
  ∃ more, history (final (main L inp w)) = history w ++ more ∧ length more ≤ 2.
Proof.
  destruct (is_option (selectbox inp)) eqn:Hopt.
  - destruct (main_turn L inp w Hopt) as (w' & Hm & _ & _ & _ & _ & _ & Hrun).
    destruct (prompt_of inp) as [prompt|] eqn:Hprompt.
    + destruct (truthy prompt) eqn:Htruthy.
      * destruct (main_records_question_holds L inp w prompt Hopt Hprompt Htruthy)
          as (tail & Hh & Htail).
        exists (("user", prompt) :: tail). unfold history at 1. rewrite Hh.
        split; [reflexivity |].
        destruct Htail as [-> | [a ->]]; cbn; lia.
      * rewrite Hrun. exists []. unfold history at 1. cbn. rewrite Hm, app_nil_r.
        split; [reflexivity | cbn; lia].
    + rewrite Hrun. exists []. unfold history at 1. cbn. rewrite Hm, app_nil_r.
      split; [reflexivity | cbn; lia].
  - rewrite main_run, Hopt. exists []. cbn. rewrite app_nil_r.
    split; [reflexivity | cbn; lia].
Qed.

(** X19: over a session the chat history only grows: what was in it stays,
    in place and in order, and every run of the script adds at most two
    entries. *)
Theorem session_history_grows (L : Library) (runs : list Inputs) (w : World) :
  ∃ more, history (session L runs w) = history w ++ more ∧ length more ≤ 2 * length runs.
Proof.
  revert w. induction runs as [|inp runs IH]; intros w; cbn [session].
  - exists []. rewrite app_nil_r. split; [reflexivity | cbn; lia].
  - destruct (main_history L inp w) as (more1 & H1 & Hl1).
    destruct (IH (final (main L inp w))) as (more2 & H2 & Hl2).
    exists (more1 ++ more2). rewrite H2, H1, app_assoc.
    split; [reflexivity |]. rewrite length_app. cbn [length]. lia.
Qed.

(** X20: a run of the script can end in three ways only: normally; with the
    [KeyError] of "Upload your own data" when a question is asked and no file
    is uploaded; or with [KeyError('answer')] when the chain hands back a
    dictionary without an ["answer"] entry. *)
Theorem main_ends (L : Library) (inp : Inputs) (w : World) :
  result (main L inp w) = Returned tt
  ∨ (result (main L inp w) = Raised (KeyError "Upload your own data")
     ∧ selectbox inp = "Upload your own data" ∧ file_uploader inp = None)
  ∨ (result (main L inp w) = Raised (KeyError "answer")
     ∧ ∃ prompt chunks answer,
         RetrievalQAWithSourcesChain_invoke L (chat_model (text_input inp))
           (qa_retriever chunks sentence_model) prompt = Returned answer
         ∧ answer !! "answer" = None).
Proof.
  destruct (is_option (selectbox inp)) eqn:Hopt.
  2: { rewrite main_run, Hopt. by left. }
  destruct (main_turn L inp w Hopt) as (w' & Hm & _ & _ & _ & _ & _ & ->).
  destruct (prompt_of inp) as [prompt|]; [| by left].
  destruct (truthy prompt); [| by left].
  destruct (answer_prompt_outcome L (script_globals (text_input inp)) (uploaded_file_of inp)
              (selectbox inp) prompt w' (history w) Hm)
    as (_ & [Hok | [(Hkey & Huf & Hnone) | (Hkey & chunks & answer & Hchain & Hans)]]).
  - by left.
  - right; left.
    unfold is_option in Hopt. unfold uploaded_file_of in Huf.
    destruct (String.eqb_spec (selectbox inp) "Upload your own data") as [Hsel | _].
    + rewrite Hkey, Hsel. done.
    + destruct (String.eqb_spec (selectbox inp) "Short Stories") as [Hsel | _];
        [rewrite Hsel in Hnone; vm_compute in Hnone; discriminate Hnone |].
      destruct (String.eqb_spec (selectbox inp) "Marketing Results") as [Hsel | _];
        [rewrite Hsel in Hnone; vm_compute in Hnone; discriminate Hnone |].
      discriminate Hopt.
  - right; right. split; [exact Hkey |]. eauto.
Qed.

(** What the loader returns, the call it makes and the errors it shows
    depend on the world only through the files on disk and the temporary
    name it draws. *)
Lemma load_and_split_pdf_frame (L : Library) (G : Globals) (uf : option UploadedFile)
    (sel : string) (w1 w2 : World) :
  files w1 = files w2 → tmp_seed w1 = tmp_seed w2 →
  result (load_and_split_pdf L G uf sel w1) = result (load_and_split_pdf L G uf sel w2) ∧
  calls (final (load_and_split_pdf L G uf sel w1))
    = calls w1 ++ loader_call G uf sel (tmp_seed w1) ∧
  ∃ shown, st_errors (final (load_and_split_pdf L G uf sel w1)) = st_errors w1 ++ shown ∧
           st_errors (final (load_and_split_pdf L G uf sel w2)) = st_errors w2 ++ shown.
Proof.
  intros Hfiles Hseed.
  destruct uf as [f|]; cbn [loader_call].
  - rewrite !load_and_split_pdf_uploaded, Hseed.
    destruct (PyPDFLoader_load_and_split L _ _); cbn;
      (split; [reflexivity |]); (split; [by rewrite Hseed |]).
    + exists []. by rewrite !app_nil_r.
    + by eexists [_].
  - destruct (truthy sel) eqn:Hsel.
    + destruct (example_pdfs G !! sel) as [p|] eqn:Hp.
      * destruct (truthy p) eqn:Htp.
        -- rewrite !(load_and_split_pdf_example L G sel p) by assumption.
           rewrite Hfiles.
           destruct (PyPDFLoader_load_and_split L _ _); cbn;
             (split; [reflexivity |]); (split; [reflexivity |]).
           ++ exists []. by rewrite !app_nil_r.
           ++ by eexists [_].
        -- rewrite !load_and_split_pdf_nothing_selected by eauto. cbn.
           rewrite !app_nil_r. split; [reflexivity |]. split; [reflexivity |].
           exists []. by rewrite !app_nil_r.
      * rewrite !load_and_split_pdf_missing_key by assumption. cbn.
        rewrite !app_nil_r. split; [reflexivity |]. split; [reflexivity |].
        exists []. by rewrite !app_nil_r.
    + rewrite !load_and_split_pdf_nothing_selected by eauto. cbn.
      rewrite !app_nil_r. split; [reflexivity |]. split; [reflexivity |].
      exists []. by rewrite !app_nil_r.
Qed.

(** X21: a rejected credential, end to end.  When the chat model and the
    embedder are set up, the loader returns [chunks], the index is built
    from them and searched, and the chain then raises [e] (as it does for an
    invalid API key), the run ends normally and the chat history gains the
    question and, as the assistant's answer, the text
    ["Error processing request: " + str(e)]. *)
Theorem main_rejected_credential (L : Library) (inp : Inputs) (w : World)
    (prompt : string) (chunks hits : list Document) (e : exn) :
  is_option (selectbox inp) = true →
  prompt_of inp = Some prompt →
  truthy prompt = true →
  ChatOpenAI L (chat_model (text_input inp)) = None →
  HuggingFaceEmbeddings L sentence_model = None →
  result (load_and_split_pdf L (script_globals (text_input inp)) (uploaded_file_of inp)
            (selectbox inp) w) = Returned chunks →
  Chroma_from_documents L chunks sentence_model = None →
  retriever_invoke L (qa_retriever chunks sentence_model) prompt = Returned hits →
  RetrievalQAWithSourcesChain_invoke L (chat_model (text_input inp))
    (qa_retriever chunks sentence_model) prompt = Raised e →
  result (main L inp w) = Returned tt ∧
  messages (final (main L inp w))
    = Some (history w ++ [("user", prompt);
                          ("assistant", "Error processing request: " +:+ str e)]).
Proof.
  intros Hopt Hprompt Htruthy Hllm Hemb Hload Hbuild Hsearch Hchain.
  destruct (main_turn L inp w Hopt) as (w' & Hm & Hf & Hs & _ & _ & _ & ->).
  rewrite Hprompt, Htruthy.
  rewrite (answer_prompt_run L _ _ _ prompt w' (history w) Hm). cbv zeta.
  cbn [Open_api_token script_globals]. rewrite Hllm.
  set (w1 := log_call _ _).
  pose proof (load_and_split_pdf_quiet_holds L (script_globals (text_input inp))
                (uploaded_file_of inp) (selectbox inp) w1) as (_ & Hm2 & _).
  destruct (load_and_split_pdf_frame L (script_globals (text_input inp))
              (uploaded_file_of inp) (selectbox inp) w1 w Hf Hs) as (Hres & _).
  rewrite Hload in Hres.
  destruct (load_and_split_pdf L _ _ _ w1) as [[chunks'|e'] w2];
    cbn [result final fst snd] in *; [| discriminate Hres].
  injection Hres as ->.
  rewrite Hemb, qa_with_sources_run. cbv zeta.
  rewrite Hbuild, Hsearch, Hchain.
  rewrite lookup_singleton_eq.
  rewrite (messages_append_run _ _ _ (history w ++ [("user", prompt)]))
    by (cbn; rewrite Hm2; reflexivity).
  cbn. rewrite <- app_assoc. done.
Qed.

Lemma main_rejected_credential_witness :
  result (main Strict.library (Demo.stories "sk-expired" (Demo.ask "Who lived happily?"))
            Demo.w1) = Returned tt ∧
  messages (final (main Strict.library (Demo.stories "sk-expired" (Demo.ask "Who lived happily?"))
                     Demo.w1))
    = Some [("user", "why?"); ("user", "Who lived happily?");
            ("assistant",
             "Error processing request: Error code: 401 - Incorrect API key provided")].
Proof.
  apply (main_rejected_credential Strict.library
           (Demo.stories "sk-expired" (Demo.ask "Who lived happily?")) Demo.w1
           "Who lived happily?" [Demo.story] [Demo.story]
           (Exception "Error code: 401 - Incorrect API key provided"));
    vm_compute; reflexivity.
Defined.



(** X23: the chat model comes first.  When its constructor raises, a
    question is answered on the page with "Error initializing the LLM
    model." and nothing else happens: no PDF is loaded, no embedder or index
    is set up, no file is touched, and the chat history gains the question
    only. *)
Theorem main_without_chat_model (L : Library) (inp : Inputs) (w : World)
    (prompt : string) (e : exn) :
  is_option (selectbox inp) = true →
  prompt_of inp = Some prompt →
  truthy prompt = true →
  ChatOpenAI L (chat_model (text_input inp)) = Some e →
  result (main L inp w) = Returned tt ∧
  calls (final (main L inp w)) = calls w ++ [CallChatOpenAI (chat_model (text_input inp))] ∧
  files (final (main L inp w)) = files w ∧
  messages (final (main L inp w)) = Some (history w ++ [("user", prompt)]) ∧
  st_errors (final (main L inp w))
    = st_errors w ++ ["Error initializing OpenAI model: " +:+ str e] ∧
  st_written (final (main L inp w))
    = st_written w ++ welcome_of (selectbox inp) :: (history w).*2
      ++ [prompt; "Error initializing the LLM model."].
Proof.
  intros Hopt Hprompt Htruthy Hllm.
  destruct (main_turn L inp w Hopt) as (w' & Hm & Hf & _ & He & Hc & Hw & ->).
  rewrite Hprompt, Htruthy.
  rewrite (answer_prompt_run L _ _ _ prompt w' (history w) Hm). cbv zeta.
  cbn [Open_api_token script_globals]. rewrite Hllm. cbn.
  rewrite Hf, He, Hc, Hw, <- !app_assoc. cbn. done.
Qed.

Lemma main_without_chat_model_witness :
  result (main Strict.library (Demo.stories "" (Demo.ask "Who lived happily?")) Demo.w1)
    = Returned tt ∧
  calls (final (main Strict.library (Demo.stories "" (Demo.ask "Who lived happily?")) Demo.w1))
    = calls Demo.w1 ++ [CallChatOpenAI (chat_model "")] ∧
  files (final (main Strict.library (Demo.stories "" (Demo.ask "Who lived happily?")) Demo.w1))
    = files Demo.w1 ∧
  messages (final (main Strict.library (Demo.stories "" (Demo.ask "Who lived happily?"))
                     Demo.w1))
    = Some [("user", "why?"); ("user", "Who lived happily?")] ∧
  st_errors (final (main Strict.library (Demo.stories "" (Demo.ask "Who lived happily?"))
                      Demo.w1))
    = ["Error retrieving documents: timeout";
       "Error initializing OpenAI model: Did not find openai_api_key"] ∧
  st_written (final (main Strict.library (Demo.stories "" (Demo.ask "Who lived happily?"))
                       Demo.w1))
    = ["why?"; welcome_stories; "why?"; "Who lived happily?";
       "Error initializing the LLM model."].
Proof.
  apply (main_without_chat_model Strict.library
           (Demo.stories "" (Demo.ask "Who lived happily?")) Demo.w1
           "Who lived happily?" (Exception "Did not find openai_api_key")); reflexivity.
Defined.

(** X24: a question answered, end to end.  When the chat model and the
    embedder are set up, the loader returns [chunks] without showing an
    error, the index is built from them and searched, and the chain's
    dictionary has the entry ["answer"] with text [a], the run ends
    normally, shows no error, writes [a] last on the page, and the chat
    history gains the question and [a] as the assistant's answer. *)
Theorem main_answers_question (L : Library) (inp : Inputs) (w : World)
    (prompt a : string) (chunks hits : list Document) (answer : gmap string string) :
  is_option (selectbox inp) = true →
  prompt_of inp = Some prompt →
  truthy prompt = true →
  ChatOpenAI L (chat_model (text_input inp)) = None →
  HuggingFaceEmbeddings L sentence_model = None →
  result (load_and_split_pdf L (script_globals (text_input inp)) (uploaded_file_of inp)
            (selectbox inp) w) = Returned chunks →
  st_errors (final (load_and_split_pdf L (script_globals (text_input inp))
                      (uploaded_file_of inp) (selectbox inp) w)) = st_errors w →
  Chroma_from_documents L chunks sentence_model = None →
  retriever_invoke L (qa_retriever chunks sentence_model) prompt = Returned hits →
  RetrievalQAWithSourcesChain_invoke L (chat_model (text_input inp))
    (qa_retriever chunks sentence_model) prompt = Returned answer →
  answer !! "answer" = Some a →
  result (main L inp w) = Returned tt ∧
  st_errors (final (main L inp w)) = st_errors w ∧
  messages (final (main L inp w))
    = Some (history w ++ [("user", prompt); ("assistant", a)]) ∧
  last (st_written (final (main L inp w))) = Some a.
Proof.
  intros Hopt Hprompt Htruthy Hllm Hemb Hload Hquiet Hbuild Hsearch Hchain Ha.
  destruct (main_turn L inp w Hopt) as (w' & Hm & Hf & Hs & He & _ & _ & ->).
  rewrite Hprompt, Htruthy.
  rewrite (answer_prompt_run L _ _ _ prompt w' (history w) Hm). cbv zeta.
  cbn [Open_api_token script_globals]. rewrite Hllm.
  set (w1 := log_call _ _).
  pose proof (load_and_split_pdf_quiet_holds L (script_globals (text_input inp))
                (uploaded_file_of inp) (selectbox inp) w1) as (_ & Hm2 & _).
  destruct (load_and_split_pdf_frame L (script_globals (text_input inp))
              (uploaded_file_of inp) (selectbox inp) w1 w Hf Hs)
    as (Hres & _ & shown & He1 & He2).
  rewrite Hload in Hres.
  assert (shown = []) as ->.
  { rewrite Hquiet in He2. rewrite <- (app_nil_r (st_errors w)) in He2 at 1.
    by apply app_inv_head in He2. }
  rewrite app_nil_r in He1.
  destruct (load_and_split_pdf L _ _ _ w1) as [[chunks'|e'] w2];
    cbn [result final fst snd] in *; [| discriminate Hres].
  injection Hres as ->.
  rewrite Hemb, qa_with_sources_run. cbv zeta.
  rewrite Hbuild, Hsearch, Hchain, Ha.
  rewrite (messages_append_run _ _ _ (history w ++ [("user", prompt)]))
    by (cbn; rewrite Hm2; reflexivity).
  cbn. rewrite He1. cbn. rewrite He, <- !app_assoc, last_snoc. done.
Qed.

Lemma main_answers_question_witness :
  result (main Strict.library (Demo.stories "sk-valid" (Demo.ask "Who lived happily?"))
            Demo.w1) = Returned tt ∧
  st_errors (final (main Strict.library (Demo.stories "sk-valid" (Demo.ask "Who lived happily?"))
                      Demo.w1)) = st_errors Demo.w1 ∧
  messages (final (main Strict.library (Demo.stories "sk-valid" (Demo.ask "Who lived happily?"))
                     Demo.w1))
    = Some [("user", "why?"); ("user", "Who lived happily?"); ("assistant", "42")] ∧
  last (st_written (final (main Strict.library
                             (Demo.stories "sk-valid" (Demo.ask "Who lived happily?"))
                             Demo.w1))) = Some "42".
Proof.
  apply (main_answers_question Strict.library
           (Demo.stories "sk-valid" (Demo.ask "Who lived happily?")) Demo.w1
           "Who lived happily?" "42" [Demo.story] [Demo.story]
           {[ "question" := "Who lived happily?"; "answer" := "42"; "sources" := "" ]});
    vm_compute; reflexivity.
Defined.

(** ** The build phase and the query phase of a session *)





(** The calls of a run do not depend on what earlier runs left in the call
    trace, on the page or in the chat history: only on the widgets, the
    files on disk and the temporary name the loader would draw. *)
Lemma question_calls_frame (L : Library) (inp : Inputs) (w1 w2 : World) :
  files w1 = files w2 → tmp_seed w1 = tmp_seed w2 →
  question_calls L inp w1 = question_calls L inp w2.
Proof.
  intros Hf Hs. unfold question_calls.
  destruct (load_and_split_pdf_frame L (script_globals (text_input inp))
              (uploaded_file_of inp) (selectbox inp) w1 w2 Hf Hs) as (-> & _).
  by rewrite Hs.
Qed.

